(** * DietAI memory manager: a shallow embedding of [memory_manager.py]

    The development follows [src/DietAI/memory_manager.py]: the session
    buffer and its counter, the two flat-text stores, the summarisation
    steps and the two context readers; and, of [src/DietAI/main.py], the
    prompt assembly, the emergency check, [chat] and the loop of [run],
    which drive the memory manager.  Python values are modelled as
    follows.

    - [str] is [string]; a character is a code point below 256.
    - [int] is [Z]; Python lists are [list].
    - A method of [MemoryManager] is a computation in the monad [M]: it
      takes the current state (the attributes of [self] together with the
      two files, the log of inference calls and the clock position) and
      yields either a value or a raised exception, together with the state
      reached.  A raised exception keeps the state reached so far, as in
      Python.
    - The language model, the clock and the file permissions are the
      environment: the model is an argument of the methods that take it in
      the source, the other two are section variables. *)

From Stdlib Require Import String Ascii List ZArith Lia Bool Arith QArith.
Import ListNotations.
Open Scope string_scope.
Open Scope Z_scope.

(* ================================================================== *)
(** ** Python primitives used by the source *)
(* ================================================================== *)

Module Py.

Definition LF : ascii := "010"%char.
Definition CR : ascii := "013"%char.
Definition nl : string := String LF "".

(** [str.isspace] on one code point below 256: TAB..CR, FS..US, space,
    NEL and NBSP. *)
Definition isspace (c : ascii) : bool :=
  let n := nat_of_ascii c in
  (((9 <=? n) && (n <=? 13)) || ((28 <=? n) && (n <=? 32))
   || (n =? 133) || (n =? 160))%nat.

(** [bool(s)] for a string. *)
Definition truthy (s : string) : bool :=
  match s with EmptyString => false | String _ _ => true end.

(** [bool(xs)] for a list. *)
Definition nonempty {A : Type} (xs : list A) : bool :=
  match xs with [] => false | _ :: _ => true end.

Fixpoint lstrip (s : string) : string :=
  match s with
  | EmptyString => EmptyString
  | String c r => if isspace c then lstrip r else s
  end.

Fixpoint rstrip (s : string) : string :=
  match s with
  | EmptyString => EmptyString
  | String c r =>
      match rstrip r with
      | EmptyString => if isspace c then EmptyString else String c EmptyString
      | r' => String c r'
      end
  end.

(** [s.strip()] *)
Definition strip (s : string) : string := rstrip (lstrip s).

(** [s.startswith(p)] *)
Fixpoint startswith (s p : string) : bool :=
  match p, s with
  | EmptyString, _ => true
  | String _ _, EmptyString => false
  | String a p', String b s' => Ascii.eqb a b && startswith s' p'
  end.

(** [sub in s] *)
Fixpoint str_in (sub s : string) : bool :=
  startswith s sub ||
  match s with
  | EmptyString => false
  | String _ r => str_in sub r
  end.

(** [s.split('\n')] *)
Fixpoint split_lines (s : string) : list string :=
  match s with
  | EmptyString => [EmptyString]
  | String c r =>
      if Ascii.eqb c LF then EmptyString :: split_lines r
      else match split_lines r with
           | h :: t => String c h :: t
           | [] => [String c EmptyString]
           end
  end.

(** ['\n'.join(xs)] *)
Definition join_lines (xs : list string) : string := String.concat nl xs.

(** [s * n] *)
Fixpoint str_mul (s : string) (n : nat) : string :=
  match n with
  | O => EmptyString
  | S k => s ++ str_mul s k
  end.

(** [xs[start:]] for an arbitrary integer [start]: a negative index counts
    from the end, and the result is clamped to the list. *)
Definition slice_from {A : Type} (start : Z) (xs : list A) : list A :=
  let len := Z.of_nat (List.length xs) in
  let i := if start <? 0 then Z.max (start + len) 0 else Z.min start len in
  skipn (Z.to_nat i) xs.

(** Reading a file opened in text mode with the default [newline=None]:
    every ["\r\n"] and every lone ["\r"] comes back as ["\n"]. *)
Fixpoint universal_newlines (s : string) : string :=
  match s with
  | EmptyString => EmptyString
  | String c r =>
      if Ascii.eqb c CR then
        match r with
        | String c' r' =>
            if Ascii.eqb c' LF then String LF (universal_newlines r')
            else String LF (universal_newlines r)
        | EmptyString => String LF EmptyString
        end
      else String c (universal_newlines r)
  end.

(** [datetime]: the fields read by the two [strftime] formats. *)
Record datetime := mkDatetime {
  year : Z; month : Z; day : Z; hour : Z; minute : Z; second : Z }.

Definition digit (n : Z) : ascii := ascii_of_nat (48 + Z.to_nat (n mod 10)).

Definition pad2 (n : Z) : string :=
  String (digit (n / 10)) (String (digit n) EmptyString).

Definition pad4 (n : Z) : string :=
  String (digit (n / 1000)) (String (digit (n / 100)) (pad2 n)).

(** One [strftime] directive; years are four digits (1000..9999). *)
Definition directive (c : ascii) (d : datetime) : string :=
  if Ascii.eqb c "Y" then pad4 (year d)
  else if Ascii.eqb c "m" then pad2 (month d)
  else if Ascii.eqb c "d" then pad2 (day d)
  else if Ascii.eqb c "H" then pad2 (hour d)
  else if Ascii.eqb c "M" then pad2 (minute d)
  else if Ascii.eqb c "S" then pad2 (second d)
  else String "%" (String c EmptyString).

(** [d.strftime(fmt)] for the directives above. *)
Fixpoint strftime (d : datetime) (fmt : string) : string :=
  match fmt with
  | EmptyString => EmptyString
  | String c r =>
      if Ascii.eqb c "%" then
        match r with
        | String k r' => directive k d ++ strftime d r'
        | EmptyString => String c EmptyString
        end
      else String c (strftime d r)
  end.

End Py.
Import Py.

(* ================================================================== *)
(** ** State, exceptions and the monad of methods *)
(* ================================================================== *)

Inductive exn : Type :=
| OSError          (* a file could not be opened or read *)
| InferenceError.  (* the model call raised, or its reply had no content *)

Inductive Result (A : Type) : Type :=
| Ok (a : A)
| Raise (e : exn).
Arguments Ok {A} a.
Arguments Raise {A} e.

(** A buffered message, [{"role": role, "content": content}]. *)
Record Message := mkMessage { role : string; content : string }.

(** The keyword arguments of [llm.create_chat_completion]. *)
Record ChatRequest := mkChatRequest {
  messages : list Message;
  max_tokens : Z;
  temperature : Q;
  stream : bool }.

(** The model: [response['choices'][0]['message']['content']] of the reply
    to a request, or an exception. *)
Definition Llama : Type := ChatRequest -> Result string.

Inductive Path : Type := short_term_path | long_term_path.

Inductive Mode : Type := mode_w | mode_a.

(** The attributes of [self] set by [__init__], the two files (absent, or
    their characters), the inference calls made so far and the number of
    clock readings taken. *)
Record State := mkState {
  short_term_limit : Z;
  long_term_sessions : Z;
  message_counter : Z;
  message_buffer : list Message;
  short_term_file : option string;
  long_term_file : option string;
  llm_calls : list ChatRequest;
  ticks : nat }.

Definition with_session (c : Z) (b : list Message) (w : State) : State :=
  mkState (short_term_limit w) (long_term_sessions w) c b
          (short_term_file w) (long_term_file w) (llm_calls w) (ticks w).

Definition with_config (l s : Z) (w : State) : State :=
  mkState l s (message_counter w) (message_buffer w)
          (short_term_file w) (long_term_file w) (llm_calls w) (ticks w).

Definition with_short_term_file (f : option string) (w : State) : State :=
  mkState (short_term_limit w) (long_term_sessions w) (message_counter w)
          (message_buffer w) f (long_term_file w) (llm_calls w) (ticks w).

Definition with_long_term_file (f : option string) (w : State) : State :=
  mkState (short_term_limit w) (long_term_sessions w) (message_counter w)
          (message_buffer w) (short_term_file w) f (llm_calls w) (ticks w).

Definition with_llm_calls (l : list ChatRequest) (w : State) : State :=
  mkState (short_term_limit w) (long_term_sessions w) (message_counter w)
          (message_buffer w) (short_term_file w) (long_term_file w) l (ticks w).

Definition with_ticks (n : nat) (w : State) : State :=
  mkState (short_term_limit w) (long_term_sessions w) (message_counter w)
          (message_buffer w) (short_term_file w) (long_term_file w)
          (llm_calls w) n.

Definition file_at (p : Path) (w : State) : option string :=
  match p with
  | short_term_path => short_term_file w
  | long_term_path => long_term_file w
  end.

Definition with_file (p : Path) (f : option string) (w : State) : State :=
  match p with
  | short_term_path => with_short_term_file f w
  | long_term_path => with_long_term_file f w
  end.

Definition M (A : Type) : Type := State -> Result A * State.

Definition ret {A : Type} (a : A) : M A := fun w => (Ok a, w).

Definition raise {A : Type} (e : exn) : M A := fun w => (Raise e, w).

Definition bind {A B : Type} (m : M A) (k : A -> M B) : M B :=
  fun w =>
    match m w with
    | (Ok a, w') => k a w'
    | (Raise e, w') => (Raise e, w')
    end.

Definition gets {A : Type} (f : State -> A) : M A := fun w => (Ok (f w), w).

Definition modify (f : State -> State) : M unit := fun w => (Ok tt, f w).

Declare Scope py_scope.
Delimit Scope py_scope with py.
Notation "x <- m ;; k" := (bind m (fun x => k))
  (at level 61, m at next level, right associativity) : py_scope.
Notation "m ;; k" := (bind m (fun _ => k))
  (at level 61, right associativity) : py_scope.
Open Scope py_scope.

(** The value and the state of a run. *)
Definition value_of {A : Type} (r : Result A * State) : Result A := fst r.
Definition state_of {A : Type} (r : Result A * State) : State := snd r.

(* ================================================================== *)
(** ** The file formats *)
(* ================================================================== *)

(** The two header lines written by [_ensure_memory_files] and by every
    reset. *)
Definition short_term_header : list string :=
  [ "# Short-term memory for current session" ++ nl;
    "# Stores up to 10 message pairs before summarization" ++ nl ++ nl ].

Definition long_term_header : list string :=
  [ "# Long-term memory for previous sessions" ++ nl;
    "# Stores summaries of past conversations" ++ nl ++ nl ].

(** The three writes of one short-term entry (source lines 145-147). *)
Definition short_term_entry (timestamp summary : string) : list string :=
  [ nl ++ "--- Summary (" ++ timestamp ++ ") ---" ++ nl;
    summary ++ nl;
    str_mul "-" 50 ++ nl ].

(** The opening marker line of a long-term entry, without its newlines. *)
Definition session_marker (session_date timestamp : string) : string :=
  "=== Session Summary (" ++ session_date ++ ") - " ++ timestamp ++ " ===".

(** The three writes of one long-term entry (source lines 208-210). *)
Definition long_term_entry (session_date timestamp summary : string)
  : list string :=
  [ nl ++ session_marker session_date timestamp ++ nl;
    summary ++ nl;
    str_mul "=" 60 ++ nl ].

(** The characters a sequence of [f.write] calls puts in a file. *)
Definition written (chunks : list string) : string :=
  String.concat "" chunks.

(** [not content.strip() or content.strip().startswith("#")]: the test
    that the source uses for a store without entries. *)
Definition no_meaningful_content (content : string) : bool :=
  negb (truthy (strip content)) || startswith (strip content) "#".

(* ================================================================== *)
(** ** The methods of [MemoryManager] *)
(* ================================================================== *)

Section Methods.

(** The clock: the [n]-th call of [datetime.now()] of the run. *)
Variable clock : nat -> datetime.

(** Whether opening a file for writing is refused. *)
Variable write_denied : Path -> bool.

(** [path.exists()] *)
Definition exists_ (p : Path) : M bool :=
  gets (fun w => match file_at p w with Some _ => true | None => false end).

(** [with open(path, 'r', encoding='utf-8') as f: f.read()].  Reading a
    store that exists is taken to succeed. *)
Definition read_file (p : Path) : M string :=
  fun w =>
    match file_at p w with
    | Some raw => (Ok (universal_newlines raw), w)
    | None => (Raise OSError, w)
    end.

(** [with open(path, mode) as f:] followed by one [f.write] per chunk.
    A refused open raises and leaves the file as it was. *)
Definition write_file (p : Path) (mode : Mode) (chunks : list string)
  : M unit :=
  fun w =>
    if write_denied p then (Raise OSError, w)
    else
      let old := match mode, file_at p w with
                 | mode_a, Some raw => raw
                 | _, _ => EmptyString
                 end in
      (Ok tt, with_file p (Some (old ++ written chunks)) w).

(** [datetime.now()] *)
Definition now : M datetime :=
  fun w => (Ok (clock (ticks w)), with_ticks (S (ticks w)) w).

(** [llm.create_chat_completion(...)] and the extraction of the reply's
    content; every call is logged. *)
Definition create_chat_completion (llm : Llama) (req : ChatRequest)
  : M string :=
  fun w => (llm req, with_llm_calls (llm_calls w ++ [req]) w).

Definition _ensure_memory_files : M unit :=
  st <- exists_ short_term_path ;;
  (if negb st then write_file short_term_path mode_w short_term_header
   else ret tt) ;;
  lt <- exists_ long_term_path ;;
  (if negb lt then write_file long_term_path mode_w long_term_header
   else ret tt).

(** [__init__], given the two settings read from the configuration. *)
Definition init (limit sessions : Z) : M unit :=
  modify (with_config limit sessions) ;;
  modify (with_session 0 []) ;;
  _ensure_memory_files.

Definition add_message (role content : string) : M unit :=
  modify (fun w => with_session (message_counter w)
                     (message_buffer w ++ [mkMessage role content]) w) ;;
  if (role =? "user")%string
  then modify (fun w => with_session (message_counter w + 1)
                          (message_buffer w) w)
  else ret tt.

Definition should_summarize : M bool :=
  counter <- gets message_counter ;;
  limit <- gets short_term_limit ;;
  ret (limit <=? counter).

Definition role_label (msg : Message) : string :=
  if (role msg =? "user")%string then "User" else "Assistant".

(** The [for] loop that renders messages after a first line. *)
Definition render_messages (first_line : string) (msgs : list Message)
  : string :=
  fold_left (fun acc msg => acc ++ role_label msg ++ ": " ++ content msg ++ nl)
            msgs first_line.

(** The request built by [summarize_short_term_memory] (source lines
    110-138). *)
Definition short_term_request (limit : Z) (buffer : list Message)
  : ChatRequest :=
  let messages_to_summarize := slice_from (- limit) buffer in
  let transcript :=
    render_messages ("Conversation Transcript:" ++ nl)
                    messages_to_summarize in
  let summarization_prompt :=
    "Summarize this conversation batch, focusing on meals discussed, "
    ++ "any new preferences/allergies mentioned, and the recommended macro split."
    ++ nl ++ nl
    ++ transcript ++ nl ++ nl
    ++ "Provide a concise summary:" in
  let messages :=
    [ mkMessage "system"
        "You are a helpful assistant that summarizes dietary conversations.";
      mkMessage "user" summarization_prompt ] in
  mkChatRequest messages 512 (3 # 10) false.

Definition summarize_short_term_memory (llm : Llama) : M string :=
  buffer <- gets message_buffer ;;
  if negb (nonempty buffer) then ret ""
  else
    limit <- gets short_term_limit ;;
    summary <- create_chat_completion llm (short_term_request limit buffer) ;;
    t <- now ;;
    let timestamp := strftime t "%Y-%m-%d %H:%M:%S" in
    write_file short_term_path mode_a (short_term_entry timestamp summary) ;;
    modify (with_session 0 []) ;;
    ret summary.

(** The request built by [save_to_long_term_memory] (source lines
    177-200). *)
Definition long_term_request (short_term_content : string) : ChatRequest :=
  let summarization_prompt :=
    "Consolidate this short-term history into key long-term dietary trends, "
    ++ "macro compliance, and persistent recommendations." ++ nl ++ nl
    ++ short_term_content ++ nl ++ nl
    ++ "Provide a comprehensive summary focusing on:" ++ nl
    ++ "- Key dietary trends and patterns" ++ nl
    ++ "- Macro compliance over time" ++ nl
    ++ "- Persistent recommendations and preferences" ++ nl
    ++ "- Important health-related notes:" in
  let messages :=
    [ mkMessage "system"
        "You are a helpful assistant that creates comprehensive dietary summaries.";
      mkMessage "user" summarization_prompt ] in
  mkChatRequest messages 1024 (3 # 10) false.

Definition save_to_long_term_memory (llm : Llama) : M unit :=
  present <- exists_ short_term_path ;;
  if negb present then ret tt
  else
    short_term_content <- read_file short_term_path ;;
    if no_meaningful_content short_term_content then ret tt
    else
      comprehensive_summary <- create_chat_completion llm
                                 (long_term_request short_term_content) ;;
      d <- now ;;
      let session_date := strftime d "%Y-%m-%d" in
      t <- now ;;
      let timestamp := strftime t "%Y-%m-%d %H:%M:%S" in
      write_file long_term_path mode_a
        (long_term_entry session_date timestamp comprehensive_summary) ;;
      write_file short_term_path mode_w short_term_header ;;
      modify (with_session 0 []).

(** One iteration of the scanning loop of [load_long_term_memory_context]
    over [(sessions, current_session, in_session)]. *)
Definition scan_line (st : list string * list string * bool) (line : string)
  : list string * list string * bool :=
  let '(sessions, current_session, in_session) := st in
  if startswith line "===" && str_in "Session Summary" line then
    let sessions :=
      if nonempty current_session && in_session
      then (sessions ++ [join_lines current_session])%list else sessions in
    (sessions, [line], true)
  else if in_session then
    let current_session := (current_session ++ [line])%list in
    if startswith line (str_mul "=" 60)
    then ((sessions ++ [join_lines current_session])%list, [], false)
    else (sessions, current_session, in_session)
  else st.

(** The list [sessions] after the loop. *)
Definition extract_sessions (content : string) : list string :=
  fst (fst (fold_left scan_line (split_lines content) ([], [], false))).

(** [sessions[-self.long_term_sessions:] if sessions else []] *)
Definition recent_of (cap : Z) (sessions : list string) : list string :=
  if nonempty sessions then slice_from (- cap) sessions else [].

(** The context string built from [recent_sessions]. *)
Definition format_context (recent_sessions : list string) : string :=
  fold_left (fun context session => context ++ session ++ nl ++ nl)
            recent_sessions
            ("Previous Session Summaries:" ++ nl ++ str_mul "-" 60 ++ nl).

Definition load_long_term_memory_context : M string :=
  present <- exists_ long_term_path ;;
  if negb present then ret ""
  else
    content <- read_file long_term_path ;;
    if no_meaningful_content content then ret ""
    else
      cap <- gets long_term_sessions ;;
      let recent_sessions := recent_of cap (extract_sessions content) in
      if negb (nonempty recent_sessions) then ret ""
      else ret (format_context recent_sessions).

Definition get_short_term_memory_context : M string :=
  buffer <- gets message_buffer ;;
  if negb (nonempty buffer) then
    present <- exists_ short_term_path ;;
    if present then
      content <- read_file short_term_path ;;
      if truthy content && negb (startswith (strip content) "#")
      then ret content
      else ret ""
    else ret ""
  else
    ret (render_messages ("Current Session Messages:" ++ nl) buffer).

Definition clear_short_term_memory : M unit :=
  modify (with_session 0 []) ;;
  write_file short_term_path mode_w short_term_header.

Definition get_long_term_history : M string :=
  present <- exists_ long_term_path ;;
  if negb present then ret "No long-term memory found."
  else
    content <- read_file long_term_path ;;
    if no_meaningful_content content
    then ret "No previous session summaries found."
    else ret content.

End Methods.

(* ================================================================== *)
(** ** Specification-level notions *)
(* ================================================================== *)

Definition is_user (m : Message) : bool := (role m =? "user")%string.

(** The number of buffered messages whose role is exactly ["user"]. *)
Definition count_user (buffer : list Message) : Z :=
  Z.of_nat (List.length (filter is_user buffer)).

(** The invariant of the session buffer. *)
Definition counter_invariant (w : State) : Prop :=
  message_counter w = count_user (message_buffer w).

(** What a file holds, an absent file holding nothing. *)
Definition raw_text (f : option string) : string :=
  match f with Some raw => raw | None => EmptyString end.

(** The operations of [MemoryManager] that write to [self]. *)
Inductive operation : Type :=
| op_add_message (role content : string)
| op_summarize_short_term_memory (llm : Llama)
| op_save_to_long_term_memory (llm : Llama)
| op_clear_short_term_memory.

(** *** Lines and entries of the long-term store *)

(** The first test of the scanning loop: the line opens an entry. *)
Definition is_marker (line : string) : bool :=
  startswith line "===" && str_in "Session Summary" line.

(** The closing delimiter line of an entry. *)
Definition closing_line : string := str_mul "=" 60.

(** A line of an entry body that the scanner takes as plain text: it is
    neither an opening marker nor a closing delimiter. *)
Definition plain_line (line : string) : bool :=
  negb (is_marker line) && negb (startswith line closing_line).

Fixpoint has_char (c : ascii) (s : string) : bool :=
  match s with
  | EmptyString => false
  | String a r => Ascii.eqb a c || has_char c r
  end.

Fixpoint all_space (s : string) : bool :=
  match s with
  | EmptyString => true
  | String a r => isspace a && all_space r
  end.

Definition newline_free (s : string) : bool :=
  negb (has_char LF s) && negb (has_char CR s).

(** The last [k] elements of a list. *)
Definition lastn {A : Type} (k : nat) (l : list A) : list A :=
  skipn (List.length l - k) l.

(** An entry as the scanner gives it back: its marker line, the summary
    and the closing line, without the surrounding newlines. *)
Definition session_text (d t summary : string) : string :=
  session_marker d t ++ nl ++ summary ++ nl ++ closing_line.

(** A long-term entry: the date and the timestamp of its marker line and
    its summary. *)
Record Entry := mkEntry {
  entry_date : string; entry_time : string; entry_summary : string }.

Definition entry_written (e : Entry) : string :=
  written (long_term_entry (entry_date e) (entry_time e) (entry_summary e)).

Definition entry_session (e : Entry) : string :=
  session_text (entry_date e) (entry_time e) (entry_summary e).

(** A store without header lines that holds the given entries, oldest
    first. *)
Fixpoint store_of (entries : list Entry) : string :=
  match entries with
  | [] => EmptyString
  | e :: rest => entry_written e ++ store_of rest
  end.

(** An entry that the scanner reads back whole: its marker is one line
    and its summary has no carriage return and only plain lines. *)
Definition readable_entry (e : Entry) : bool :=
  newline_free (entry_date e) && newline_free (entry_time e)
  && negb (has_char CR (entry_summary e))
  && forallb plain_line (split_lines (entry_summary e)).

(** The value of [load_long_term_memory_context] as a function of the
    long-term store and of the cap. *)
Definition context_of (file : option string) (cap : Z) : string :=
  match file with
  | None => ""
  | Some raw =>
      let content := universal_newlines raw in
      if no_meaningful_content content then ""
      else
        let recent := recent_of cap (extract_sessions content) in
        if negb (nonempty recent) then "" else format_context recent
  end.

(** *** Sample values

    Used by the statements that are evaluated on a concrete store. *)
Definition oatmeal_entry : Entry :=
  mkEntry "2024-01-05" "2024-01-05 09:03:01" "Oatmeal".
Definition lentil_entry : Entry :=
  mkEntry "2024-01-06" "2024-01-06 18:30:00" "Lentil soup".

Definition sample_state (cap : Z) (long_term : option string) : State :=
  mkState 3 cap 0 [] (Some (written short_term_header)) long_term [] 0.

(** A clock that advances by one second at each reading. *)
Definition sample_clock (n : nat) : datetime :=
  mkDatetime 2024 1 5 9 3 (Z.of_nat n).

Definition allow_writes (p : Path) : bool := false.
Definition deny_writes (p : Path) : bool := true.

Definition batch_summary : string := "Oatmeal with berries, 30g protein.".
Definition session_summary : string :=
  "Prefers oatmeal breakfasts; target 30g protein per meal.".

(** A summary with a line of sixty ['='] in the middle. *)
Definition delimited_summary : string :=
  "Breakfast: oatmeal" ++ nl ++ str_mul "=" 60 ++ nl ++ "Dinner: lentil soup".

(** A model that answers the batch request (512 tokens) with
    [batch_summary] and the consolidation request with [answer]. *)
Definition sample_llm (answer : string) : Llama :=
  fun req => if max_tokens req =? 512 then Ok batch_summary else Ok answer.

(** A machine on which neither store exists yet. *)
Definition no_files : State := mkState 0 0 0 [] None None [] 0.

(** A session of one exchange followed by a summarisation, from
    construction with threshold 3 and cap 3. *)
Definition one_exchange (llm : Llama) : M string :=
  init allow_writes 3 3 ;;
  add_message "user" "What's a good breakfast?" ;;
  add_message "assistant" "Oatmeal with berries, 30g protein..." ;;
  summarize_short_term_memory sample_clock allow_writes llm.

(** A state whose stores were created empty, without header lines, and
    whose short-term store then received one entry. *)
Definition headerless_state : State :=
  mkState 3 3 0 []
    (Some (written (short_term_entry "2024-01-05 09:00:00" batch_summary)))
    (Some "") [] 0.

(** A buffer of two exchanges. *)
Definition two_exchanges : list Message :=
  [ mkMessage "user" "What's a good breakfast?";
    mkMessage "assistant" "Oatmeal with berries, 30g protein...";
    mkMessage "user" "And for lunch?";
    mkMessage "assistant" "A lentil salad." ].

Definition buffered_state : State :=
  mkState 3 3 2 two_exchanges (Some (written short_term_header))
          (Some (written long_term_header)) [] 0.

(** *** Running operations *)

Section Operations.

Variable clock : nat -> datetime.
Variable write_denied : Path -> bool.

(** The state after one operation, whether it returns or raises. *)
Definition run_operation (o : operation) (w : State) : State :=
  match o with
  | op_add_message r c => state_of (add_message r c w)
  | op_summarize_short_term_memory llm =>
      state_of (summarize_short_term_memory clock write_denied llm w)
  | op_save_to_long_term_memory llm =>
      state_of (save_to_long_term_memory clock write_denied llm w)
  | op_clear_short_term_memory =>
      state_of (clear_short_term_memory write_denied w)
  end.

(** The state after a sequence of [add_message] calls. *)
Definition add_messages (msgs : list Message) (w : State) : State :=
  fold_left (fun w m => state_of (add_message (role m) (content m) w)) msgs w.

End Operations.

(* ================================================================== *)
(** ** The application: [main.py]

    The class [DietAI] drives the memory manager.  Its console output is
    not modelled.  The attributes that are fixed once the object is built
    are the record [DietAI]; what changes afterwards is the state of the
    memory manager and, to tell which requests reached the model, the log
    of streaming calls. *)
(* ================================================================== *)

(** [c.lower()] on one code point below 256: [A]..[Z] and the Latin-1
    capitals (192..222 but the multiplication sign 215) move up by 32. *)
Definition lower_char (c : ascii) : ascii :=
  let n := nat_of_ascii c in
  if (((65 <=? n) && (n <=? 90))
      || ((192 <=? n) && (n <=? 222) && negb (n =? 215)))%nat
  then ascii_of_nat (n + 32) else c.

(** [s.lower()] *)
Fixpoint lower (s : string) : string :=
  match s with
  | EmptyString => EmptyString
  | String c r => String (lower_char c) (lower r)
  end.

(** The attributes of a [DietAI] object that stay as they are after
    construction: the string that [_build_personal_context] returns for
    the preferences and the blood report that were loaded, the long-term
    context loaded at start, and the three settings of the [llm] section
    of the configuration after their conversion by [float] and [int]. *)
Record DietAI := mkDietAI {
  personal_context : string;
  long_term_context : string;
  llm_temperature : Q;
  llm_max_tokens : Z;
  llm_repeat_penalty : Q }.

(** The keyword arguments of the streaming call of [chat]. *)
Record StreamRequest := mkStreamRequest {
  stream_messages : list Message;
  stream_temperature : Q;
  stream_max_tokens : Z;
  stream_repeat_penalty : Q }.

(** The model called with [stream=True]: for each chunk of the reply,
    the content of its delta when it has one; or an exception. *)
Definition StreamingLlama : Type :=
  StreamRequest -> Result (list (option string)).

(** What changes while the application runs. *)
Record App := mkApp {
  memory_manager : State;
  stream_calls : list StreamRequest }.

Definition AppM (A : Type) : Type := App -> Result A * App.

Definition aret {A : Type} (x : A) : AppM A := fun a => (Ok x, a).

Definition abind {A B : Type} (m : AppM A) (k : A -> AppM B) : AppM B :=
  fun a =>
    match m a with
    | (Ok x, a') => k x a'
    | (Raise e, a') => (Raise e, a')
    end.

(** A call of a method of [self.memory_manager]. *)
Definition lift {A : Type} (m : M A) : AppM A :=
  fun a =>
    let r := m (memory_manager a) in
    (fst r, mkApp (snd r) (stream_calls a)).

(** [try: m except Exception as e: h e] *)
Definition catch {A : Type} (m : AppM A) (h : exn -> AppM A) : AppM A :=
  fun a =>
    match m a with
    | (Ok x, a') => (Ok x, a')
    | (Raise e, a') => h e a'
    end.

Declare Scope app_scope.
Delimit Scope app_scope with app.
Notation "x <- m ;; k" := (abind m (fun x => k))
  (at level 61, m at next level, right associativity) : app_scope.
Notation "m ;; k" := (abind m (fun _ => k))
  (at level 61, right associativity) : app_scope.

(** The string returned by [_build_system_prompt]. *)
Definition system_prompt : string :=
  "You are an expert Personalized Nutrition and Macro Coach." ++ nl ++ nl
  ++ "CRITICAL RULES:" ++ nl
  ++ "- Keep ALL responses under 200 tokens" ++ nl
  ++ "- Be PRECISE and CONCISE - maximum 2-3 sentences" ++ nl
  ++ "- Always include macro breakdown (C/P/F) for meals" ++ nl
  ++ "- Consider user's blood report and preferences" ++ nl
  ++ "- Be direct and actionable" ++ nl ++ nl
  ++ "Note: You are not a registered dietitian or medical doctor.".

Definition emergency_keywords : list string :=
  [ "anorexia"; "suicide"; "severe pain"; "chest pain";
    "heart attack"; "stroke"; "emergency"; "dying" ].

(** The value returned by [_check_emergency_keywords]. *)
Definition _check_emergency_keywords (user_input : string) : bool :=
  let user_lower := lower user_input in
  existsb (fun keyword => str_in keyword user_lower) emergency_keywords.

(** The list built by [_build_complete_prompt] from the short-term
    context that was read. *)
Definition prompt_messages
  (self : DietAI) (short_term_memory user_query : string) : list Message :=
  let long_term_memory :=
    if truthy (long_term_context self) then long_term_context self else "" in
  let messages :=
    [ mkMessage "system" (system_prompt ++ personal_context self) ] in
  let messages :=
    if truthy long_term_memory
    then (messages ++
          [ mkMessage "system"
              (nl ++ nl ++ "LONG-TERM MEMORY:" ++ nl ++ long_term_memory) ])%list
    else messages in
  let messages :=
    if truthy short_term_memory
    then (messages ++
          [ mkMessage "system" (nl ++ nl ++ short_term_memory) ])%list
    else messages in
  (messages ++ [ mkMessage "user" user_query ])%list.

(** The loop of [chat] over the chunks of the reply. *)
Definition collect_tokens (chunks : list (option string)) : string :=
  fold_left (fun assistant_message chunk =>
               match chunk with
               | Some token => assistant_message ++ token
               | None => assistant_message
               end) chunks "".

(** What the prompt of [input] yields: a line, or an interrupt. *)
Inductive InputEvent : Type :=
| Line (text : string)
| Interrupt.

(** How an iteration of the loop of [run] ends. *)
Inductive Control : Type := Continue | Break.

Section Application.

Variable clock : nat -> datetime.
Variable write_denied : Path -> bool.

(** [self.llm], for the calls without and with streaming. *)
Variable llm : Llama.
Variable llm_stream : StreamingLlama.

Variable self : DietAI.

Local Open Scope app_scope.

Definition _build_complete_prompt (user_query : string)
  : AppM (list Message) :=
  short_term_memory <- lift get_short_term_memory_context ;;
  aret (prompt_messages self short_term_memory user_query).

(** The streaming call of [chat]; every call is logged. *)
Definition create_chat_completion_stream (req : StreamRequest)
  : AppM (list (option string)) :=
  fun a => (llm_stream req,
            mkApp (memory_manager a) (stream_calls a ++ [req])).

Definition chat (user_message : string) : AppM string :=
  messages <- _build_complete_prompt user_message ;;
  response <- create_chat_completion_stream
                (mkStreamRequest messages (llm_temperature self)
                   (llm_max_tokens self) (llm_repeat_penalty self)) ;;
  let assistant_message := collect_tokens response in
  lift (add_message "user" user_message) ;;
  lift (add_message "assistant" assistant_message) ;;
  due <- lift should_summarize ;;
  (if due
   then lift (summarize_short_term_memory clock write_denied llm) ;; aret tt
   else aret tt) ;;
  aret assistant_message.

(** The body of the [try] of [run] for one line of input.  The branches
    for [/goals] and for an unknown command only print. *)
Definition handle_line (line : string) : AppM Control :=
  let user_input := strip line in
  if negb (truthy user_input) then aret Continue
  else if startswith user_input "/" then
    if (lower user_input =? "/exit")%string then
      lift (save_to_long_term_memory clock write_denied llm) ;; aret Break
    else if (lower user_input =? "/clear")%string then
      lift (clear_short_term_memory write_denied) ;; aret Continue
    else if (lower user_input =? "/history")%string then
      lift get_long_term_history ;; aret Continue
    else aret Continue
  else if _check_emergency_keywords user_input then aret Continue
  else chat user_input ;; aret Continue.

(** One iteration of the loop of [run]: the [try] with its two handlers. *)
Definition step (event : InputEvent) : AppM Control :=
  match event with
  | Line line => catch (handle_line line) (fun _ => aret Continue)
  | Interrupt =>
      lift (save_to_long_term_memory clock write_denied llm) ;; aret Break
  end.

(** The loop of [run] over the inputs that arrive; [Continue] when the
    loop is still waiting for input after the last of them. *)
Fixpoint run (events : list InputEvent) : AppM Control :=
  match events with
  | [] => aret Continue
  | event :: rest =>
      control <- step event ;;
      match control with
      | Break => aret Break
      | Continue => run rest
      end
  end.

End Application.

(** A line that [run] only answers on the console: a blank line, a
    command other than [/exit] and [/clear], or a line that is not a
    command and holds an emergency keyword. *)
Definition console_only (line : string) : bool :=
  let user_input := strip line in
  negb (truthy user_input)
  || (startswith user_input "/"
      && negb (lower user_input =? "/exit")%string
      && negb (lower user_input =? "/clear")%string)
  || (negb (startswith user_input "/")
      && _check_emergency_keywords user_input).

(** The request that [chat] sends for a query, given the short-term
    context read. *)
Definition chat_request (self : DietAI) (short_term_memory query : string)
  : StreamRequest :=
  mkStreamRequest (prompt_messages self short_term_memory query)
    (llm_temperature self) (llm_max_tokens self) (llm_repeat_penalty self).

(** *** Further sample values for the stores *)

(** Only the short-term store is refused for writing. *)
Definition deny_short_term (p : Path) : bool :=
  match p with short_term_path => true | long_term_path => false end.

(** Only the long-term store is refused for writing. *)
Definition deny_long_term (p : Path) : bool :=
  match p with short_term_path => false | long_term_path => true end.

(** A state with the given cap whose long-term store, without header
    lines, holds the two sample entries. *)
Definition two_entries_state (cap : Z) : State :=
  mkState 3 cap 0 [] (Some (written short_term_header))
          (Some (store_of [oatmeal_entry; lentil_entry])) [] 0.

(** *** Sample values for the application *)

Definition sample_self : DietAI :=
  mkDietAI "" "" (7 # 10) 200 (11 # 10).

(** A model that streams its reply in three chunks, the first without
    content. *)
Definition sample_stream : StreamingLlama :=
  fun _ => Ok [None; Some "Oatmeal with berries, "; Some "30g protein..."].

Definition failing_stream : StreamingLlama := fun _ => Raise InferenceError.

Definition failing_llm : Llama := fun _ => Raise InferenceError.

(** The application right after construction on a machine without
    stores, with threshold [limit]. *)
Definition fresh_app (limit : Z) : App :=
  mkApp (mkState limit 3 0 [] (Some (written short_term_header))
                 (Some (written long_term_header)) [] 0) [].

(** The application with one exchange buffered and a short-term store
    without header lines. *)
Definition headerless_app : App :=
  mkApp (mkState 2 3 1
           [ mkMessage "user" "What's a good breakfast?";
             mkMessage "assistant" "Oatmeal with berries, 30g protein..." ]
           (Some "") (Some "") [] 0) [].

(** *** The text of the entries, written out

    The format of the entries of the short-term store, stated on its own
    and not through the writes of the code: the marker line with the
    timestamp, the summary, and a separator line of fifty ['-']; each
    entry follows a line break. *)

Definition separator_line : string :=
  "--------------------------------------------------".

Definition summary_entry_text (timestamp summary : string) : string :=
  "--- Summary (" ++ timestamp ++ ") ---" ++ nl
  ++ summary ++ nl
  ++ separator_line ++ nl.

(** The text of a sequence of entries, each given by its timestamp and
    its summary, oldest first. *)
Fixpoint short_term_entries_text (entries : list (string * string)) : string :=
  match entries with
  | [] => EmptyString
  | (timestamp, summary) :: rest =>
      nl ++ summary_entry_text timestamp summary
      ++ short_term_entries_text rest
  end.

(** The fixed part of the request of [summarize_short_term_memory], and
    the prompt for a transcript. *)
Definition summarizer_role : string :=
  "You are a helpful assistant that summarizes dietary conversations.".

Definition summary_prompt (transcript : string) : string :=
  "Summarize this conversation batch, focusing on meals discussed, any new preferences/allergies mentioned, and the recommended macro split."
  ++ nl ++ nl ++ transcript ++ nl ++ nl ++ "Provide a concise summary:".

(** The line of the transcript for one message, and the lines for a
    sequence of messages. *)
Definition message_line (m : Message) : string :=
  (if (role m =? "user")%string then "User" else "Assistant")
  ++ ": " ++ content m ++ nl.

Fixpoint transcript_lines (msgs : list Message) : string :=
  match msgs with
  | [] => EmptyString
  | m :: rest => message_line m ++ transcript_lines rest
  end.

(** A state with two exchanges buffered whose short-term store holds the
    header and one entry already. *)
Definition summarised_state : State :=
  mkState 3 3 2 two_exchanges
    (Some (written short_term_header ++
           short_term_entries_text [("2024-01-05 08:00:00", "Porridge.")]))
    (Some (written long_term_header)) [] 0.

(** A state whose long-term store was created by the program and whose
    short-term store, created empty, received one entry. *)
Definition headed_long_term_state : State :=
  mkState 3 3 0 []
    (Some (written (short_term_entry "2024-01-05 09:00:00" batch_summary)))
    (Some (written long_term_header)) [] 0.

#[local] Arguments no_meaningful_content : simpl never.
#[local] Arguments short_term_request : simpl never.
#[local] Arguments long_term_request : simpl never.
#[local] Arguments strftime : simpl never.
#[local] Arguments written : simpl never.
#[local] Arguments extract_sessions : simpl never.
#[local] Arguments format_context : simpl never.
#[local] Arguments recent_of : simpl never.

(** Unfolds the monad and the primitives of a method. *)
Ltac run_method :=
  unfold bind, ret, raise, gets, modify, exists_, read_file, write_file, now,
    create_chat_completion, value_of, state_of; simpl.

(* ================================================================== *)
(** ** Properties of the session buffer and of summarisation *)
(* ================================================================== *)

Section SessionBuffer.

Variable clock : nat -> datetime.
Variable write_denied : Path -> bool.

Lemma count_user_app (b1 b2 : list Message) :
  count_user (b1 ++ b2) = count_user b1 + count_user b2.
Proof.
  unfold count_user. rewrite filter_app, length_app. lia.
Qed.

Lemma count_user_nonneg (b : list Message) : 0 <= count_user b.
Proof. unfold count_user. lia. Qed.

Lemma count_user_firstn (k : nat) (b : list Message) :
  count_user (firstn k b) <= count_user b.
Proof.
  rewrite <- (firstn_skipn k b) at 2. rewrite count_user_app.
  pose proof (count_user_nonneg (skipn k b)). lia.
Qed.

Lemma add_message_state (r c : string) (w : State) :
  add_message r c w =
  (Ok tt,
   with_session (message_counter w + (if (r =? "user")%string then 1 else 0))
                (message_buffer w ++ [mkMessage r c]) w).
Proof.
  unfold add_message. run_method.
  destruct (r =? "user")%string; run_method; unfold with_session; simpl.
  - reflexivity.
  - rewrite Z.add_0_r. reflexivity.
Qed.

Lemma add_messages_cons (m : Message) (msgs : list Message) (w : State) :
  add_messages (m :: msgs) w =
  add_messages msgs
    (with_session (message_counter w + (if is_user m then 1 else 0))
                  (message_buffer w ++ [m]) w).
Proof.
  unfold add_messages. cbn [fold_left]. rewrite add_message_state.
  unfold state_of, is_user. cbn [snd]. destruct m; reflexivity.
Qed.

Lemma count_user_cons (m : Message) (b : list Message) :
  count_user (m :: b) = (if is_user m then 1 else 0) + count_user b.
Proof.
  unfold count_user. cbn [filter]. destruct (is_user m); cbn [List.length]; lia.
Qed.

Lemma add_messages_counter (msgs : list Message) (w : State) :
  message_counter (add_messages msgs w) = message_counter w + count_user msgs
  /\ short_term_limit (add_messages msgs w) = short_term_limit w.
Proof.
  revert w. induction msgs as [|m msgs IH]; intros w.
  - unfold add_messages, count_user. cbn. split; [lia | reflexivity].
  - rewrite add_messages_cons, count_user_cons.
    destruct (IH (with_session
                    (message_counter w + (if is_user m then 1 else 0))
                    (message_buffer w ++ [m])%list w)) as [Hc Hl].
    rewrite Hc, Hl. cbn [with_session message_counter short_term_limit].
    split; [lia | reflexivity].
Qed.

Lemma should_summarize_value (w : State) :
  should_summarize w = (Ok (short_term_limit w <=? message_counter w), w).
Proof. reflexivity. Qed.

(** C7.  Starting from a reset counter, [should_summarize] is false after
    every call of a sequence of [add_message] calls that holds fewer
    user-role messages than [short_term_limit]; it is true after the call
    that records the [short_term_limit]-th user message; and it never
    changes the state. *)
Theorem should_summarize_threshold (w0 : State) (msgs : list Message) :
  message_counter w0 = 0 ->
  (count_user msgs < short_term_limit w0 ->
   forall k : nat,
     value_of (should_summarize (add_messages (firstn k msgs) w0)) = Ok false)
  /\ (forall c : string,
        count_user msgs + 1 = short_term_limit w0 ->
        value_of (should_summarize
                    (add_messages (msgs ++ [mkMessage "user" c]) w0)) = Ok true)
  /\ (forall w : State, state_of (should_summarize w) = w).
Proof.
  intros H0. split; [| split].
  - intros Hlt k. rewrite should_summarize_value. unfold value_of. simpl.
    destruct (add_messages_counter (firstn k msgs) w0) as [Hc Hl].
    rewrite Hc, Hl, H0. pose proof (count_user_firstn k msgs).
    f_equal. apply Z.leb_gt. lia.
  - intros c Heq. rewrite should_summarize_value. unfold value_of. simpl.
    destruct (add_messages_counter (msgs ++ [mkMessage "user" c]) w0) as [Hc Hl].
    rewrite Hc, Hl, H0, count_user_app. unfold count_user at 2. simpl.
    f_equal. apply Z.leb_le. lia.
  - intros w. reflexivity.
Qed.

Lemma summarize_session (llm : Llama) (w : State) :
  let w' := state_of (summarize_short_term_memory clock write_denied llm w) in
  (message_counter w' = message_counter w /\
   message_buffer w' = message_buffer w)
  \/ (message_counter w' = 0 /\ message_buffer w' = []).
Proof.
  unfold summarize_short_term_memory. run_method.
  destruct (message_buffer w) as [|m b] eqn:Hb; simpl.
  - left. split; [reflexivity | exact Hb].
  - destruct (llm _); simpl.
    + destruct (write_denied short_term_path); simpl.
      * left. split; [reflexivity | exact Hb].
      * right. split; reflexivity.
    + left. split; [reflexivity | exact Hb].
Qed.

Lemma save_session (llm : Llama) (w : State) :
  let w' := state_of (save_to_long_term_memory clock write_denied llm w) in
  (message_counter w' = message_counter w /\
   message_buffer w' = message_buffer w)
  \/ (message_counter w' = 0 /\ message_buffer w' = []).
Proof.
  unfold save_to_long_term_memory. run_method.
  destruct (short_term_file w) as [raw|] eqn:Hf; simpl;
    [rewrite Hf | left; split; reflexivity].
  destruct (no_meaningful_content _); simpl; [left; split; reflexivity |].
  destruct (llm _); simpl; [| left; split; reflexivity].
  destruct (write_denied long_term_path); simpl; [left; split; reflexivity |].
  destruct (write_denied short_term_path); simpl; [left; split; reflexivity |].
  right. split; reflexivity.
Qed.

(** C8.  Every operation of the memory manager preserves the invariant
    that the user-message counter equals the number of buffered messages
    whose role is exactly ["user"], whatever the role strings, the answers
    of the model and the outcome of the file writes. *)
Theorem counter_invariant_preserved (o : operation) (w : State) :
  counter_invariant w -> counter_invariant (run_operation clock write_denied o w).
Proof.
  unfold counter_invariant. intros Hinv.
  destruct o as [r c | llm | llm |]; simpl.
  - rewrite add_message_state. unfold state_of. simpl.
    rewrite count_user_app, Hinv. unfold count_user at 3. simpl.
    unfold is_user. simpl. destruct (r =? "user")%string; reflexivity.
  - destruct (summarize_session llm w) as [[Hc Hb] | [Hc Hb]];
      rewrite Hc, Hb; [exact Hinv | reflexivity].
  - destruct (save_session llm w) as [[Hc Hb] | [Hc Hb]];
      rewrite Hc, Hb; [exact Hinv | reflexivity].
  - unfold clear_short_term_memory. run_method.
    destruct (write_denied short_term_path); reflexivity.
Qed.

(** C10.  With an empty session buffer, [summarize_short_term_memory]
    returns the empty string and leaves the whole state as it was: the log
    of inference calls, both files, the buffer and the counter. *)
Theorem summarize_empty_buffer (llm : Llama) (w : State) :
  message_buffer w = [] ->
  summarize_short_term_memory clock write_denied llm w = (Ok "", w).
Proof.
  intros Hb. unfold summarize_short_term_memory. run_method.
  rewrite Hb. reflexivity.
Qed.

(** C9.  When the buffer is not empty, the model answers and the open of
    the short-term store for appending is refused,
    [summarize_short_term_memory] raises the I/O error and the session
    buffer and the counter keep their values. *)
Theorem summarize_write_failure (llm : Llama) (w : State) (summary : string) :
  nonempty (message_buffer w) = true ->
  llm (short_term_request (short_term_limit w) (message_buffer w)) = Ok summary ->
  write_denied short_term_path = true ->
  let r := summarize_short_term_memory clock write_denied llm w in
  value_of r = Raise OSError
  /\ message_buffer (state_of r) = message_buffer w
  /\ message_counter (state_of r) = message_counter w
  /\ short_term_file (state_of r) = short_term_file w.
Proof.
  intros Hb Hllm Hden. unfold summarize_short_term_memory. run_method.
  destruct (message_buffer w) as [|m b] eqn:E; [discriminate |]. simpl.
  rewrite Hllm. simpl. rewrite Hden. simpl. repeat split; auto.
Qed.

End SessionBuffer.

(* ================================================================== *)
(** ** Lemmas on the string primitives *)
(* ================================================================== *)

Lemma has_char_app (c : ascii) (a b : string) :
  has_char c (a ++ b) = has_char c a || has_char c b.
Proof.
  induction a as [|x a IH]; simpl; [reflexivity |].
  rewrite IH. apply orb_assoc.
Qed.

Lemma split_lines_nonempty (s : string) : split_lines s <> [].
Proof.
  destruct s as [|c r]; simpl; [discriminate |].
  destruct (Ascii.eqb c LF); [discriminate |].
  destruct (split_lines r); discriminate.
Qed.

Lemma split_lines_app (a b : string) :
  split_lines (a ++ String LF b) = (split_lines a ++ split_lines b)%list.
Proof.
  induction a as [|c a IH]; simpl.
  - reflexivity.
  - rewrite IH. destruct (Ascii.eqb c LF); [reflexivity |].
    destruct (split_lines a) as [|h t] eqn:E; [| reflexivity].
    exfalso. exact (split_lines_nonempty a E).
Qed.

Lemma split_lines_single (s : string) :
  has_char LF s = false -> split_lines s = [s].
Proof.
  induction s as [|c r IH]; simpl; intros H; [reflexivity |].
  apply orb_false_iff in H. destruct H as [Hc Hr].
  rewrite Hc, (IH Hr). reflexivity.
Qed.

Lemma join_lines_cons (x y : string) (l : list string) :
  join_lines (x :: y :: l) = x ++ nl ++ join_lines (y :: l).
Proof. reflexivity. Qed.

Lemma join_split_lines (s : string) : join_lines (split_lines s) = s.
Proof.
  induction s as [|c r IH]; [reflexivity |].
  simpl split_lines. destruct (Ascii.eqb c LF) eqn:E.
  - apply Ascii.eqb_eq in E. subst c.
    destruct (split_lines r) as [|h t] eqn:Er;
      [exfalso; exact (split_lines_nonempty r Er) |].
    rewrite join_lines_cons, IH. reflexivity.
  - destruct (split_lines r) as [|h t] eqn:Er;
      [exfalso; exact (split_lines_nonempty r Er) |].
    destruct t as [|h' t].
    + rewrite <- IH. reflexivity.
    + rewrite <- IH. reflexivity.
Qed.

Lemma append_assoc (a b c : string) : (a ++ b) ++ c = a ++ (b ++ c).
Proof. induction a as [|x a IH]; simpl; [reflexivity | now rewrite IH]. Qed.

Lemma join_lines_snoc (l : list string) (z : string) :
  l <> [] -> join_lines (l ++ [z]) = join_lines l ++ nl ++ z.
Proof.
  induction l as [|x l IH]; intros Hne; [congruence |].
  destruct l as [|y l].
  - reflexivity.
  - change ((x :: y :: l) ++ [z])%list with (x :: (y :: l) ++ [z])%list.
    change ((y :: l) ++ [z])%list with (y :: (l ++ [z]))%list.
    rewrite join_lines_cons.
    change (y :: (l ++ [z]))%list with ((y :: l) ++ [z])%list.
    rewrite IH by discriminate.
    rewrite join_lines_cons. rewrite !append_assoc. reflexivity.
Qed.

(** The text of a session as the scanner rebuilds it: the marker line,
    the body and the closing line. *)
Lemma join_session (marker body closing : string) :
  join_lines (([marker] ++ split_lines body) ++ [closing]) =
  marker ++ nl ++ body ++ nl ++ closing.
Proof.
  rewrite join_lines_snoc by discriminate.
  destruct (split_lines body) as [|h t] eqn:E;
    [exfalso; exact (split_lines_nonempty body E) |].
  change ([marker] ++ h :: t)%list with (marker :: h :: t).
  rewrite join_lines_cons, <- E, join_split_lines.
  rewrite !append_assoc. reflexivity.
Qed.

(** *** Universal newlines *)

Lemma universal_newlines_id (s : string) :
  has_char CR s = false -> universal_newlines s = s.
Proof.
  induction s as [|c r IH]; simpl; intros H; [reflexivity |].
  apply orb_false_iff in H. destruct H as [Hc Hr].
  rewrite Hc, (IH Hr). reflexivity.
Qed.

Lemma universal_newlines_before_lf (n : nat) :
  forall p r : string,
    (String.length p <= n)%nat ->
    has_char CR r = false ->
    exists x : string,
      universal_newlines (p ++ String LF r) = x ++ String LF r.
Proof.
  induction n as [|n IH]; intros p r Hlen Hr.
  - destruct p; [| simpl in Hlen; lia].
    exists "". simpl. rewrite (universal_newlines_id r Hr). reflexivity.
  - destruct p as [|c p].
    + exists "". simpl. rewrite (universal_newlines_id r Hr). reflexivity.
    + simpl in Hlen. simpl. destruct (Ascii.eqb c CR).
      * destruct p as [|c' p]; simpl.
        -- exists "". rewrite (universal_newlines_id r Hr). reflexivity.
        -- destruct (Ascii.eqb c' LF).
           ++ destruct (IH p r ltac:(simpl in Hlen; lia) Hr) as [x Hx].
              exists (String LF x). rewrite Hx. reflexivity.
           ++ destruct (IH (String c' p) r ltac:(lia) Hr) as [x Hx].
              exists (String LF x). simpl in Hx. rewrite Hx. reflexivity.
      * destruct (IH p r ltac:(lia) Hr) as [x Hx].
        exists (String c x). rewrite Hx. reflexivity.
Qed.

(** *** Stripping and the first visible character *)

Lemma lstrip_app (a b : string) :
  lstrip (a ++ b) = if all_space a then lstrip b else lstrip a ++ b.
Proof.
  induction a as [|c a IH]; simpl; [reflexivity |].
  destruct (isspace c); simpl; [exact IH | reflexivity].
Qed.

Lemma lstrip_head (s : string) :
  lstrip s = "" \/ exists c r, lstrip s = String c r /\ isspace c = false.
Proof.
  induction s as [|c r IH]; simpl; [left; reflexivity |].
  destruct (isspace c) eqn:E; [exact IH |].
  right. exists c, r. split; [reflexivity | exact E].
Qed.

Lemma rstrip_head (c : ascii) (r : string) :
  isspace c = false -> exists r', rstrip (String c r) = String c r'.
Proof.
  intros H. simpl. rewrite H. destruct (rstrip r); eauto.
Qed.

Lemma startswith_nil (s : string) : startswith s "" = true.
Proof. destruct s; reflexivity. Qed.

Lemma strip_first (s : string) (p : ascii) :
  startswith (strip s) (String p "") = startswith (lstrip s) (String p "").
Proof.
  unfold strip. destruct (lstrip_head s) as [E | (c & r & E & Hc)]; rewrite E.
  - reflexivity.
  - destruct (rstrip_head c r Hc) as [r' Hr]. rewrite Hr. simpl.
    rewrite !startswith_nil. reflexivity.
Qed.

Lemma strip_truthy (s : string) :
  truthy (strip s) = truthy (lstrip s).
Proof.
  unfold strip. destruct (lstrip_head s) as [E | (c & r & E & Hc)]; rewrite E.
  - reflexivity.
  - destruct (rstrip_head c r Hc) as [r' Hr]. rewrite Hr. reflexivity.
Qed.

Lemma no_meaningful_content_lstrip (s : string) :
  no_meaningful_content s =
  negb (truthy (lstrip s)) || startswith (lstrip s) "#".
Proof.
  unfold no_meaningful_content. rewrite strip_truthy, (strip_first s "#").
  reflexivity.
Qed.

(** A store whose first character is ['#'] is taken to have no entries,
    whatever follows. *)
Lemma hash_first_no_content (rest : string) :
  no_meaningful_content (universal_newlines (String "#" rest)) = true.
Proof.
  rewrite no_meaningful_content_lstrip. simpl.
  rewrite startswith_nil. reflexivity.
Qed.

Lemma lstrip_all_space (s : string) :
  all_space s = false -> lstrip s <> "".
Proof.
  induction s as [|c r IH]; simpl; [discriminate |].
  destruct (isspace c); simpl; [exact IH | discriminate].
Qed.

Lemma lstrip_universal_newlines (n : nat) :
  forall s : string,
    (String.length s <= n)%nat ->
    lstrip (universal_newlines s) = universal_newlines (lstrip s).
Proof.
  induction n as [|n IH]; intros s Hlen.
  - destruct s; [reflexivity | simpl in Hlen; lia].
  - destruct s as [|c r]; [reflexivity |].
    simpl in Hlen. simpl. destruct (Ascii.eqb c CR) eqn:Ec.
    + apply Ascii.eqb_eq in Ec. subst c.
      change (isspace CR) with true. cbv iota.
      destruct r as [|c' r']; [reflexivity |].
      destruct (Ascii.eqb c' LF) eqn:El.
      * apply Ascii.eqb_eq in El. subst c'.
        change (lstrip (String LF r')) with (lstrip r').
        change (lstrip (String LF (universal_newlines r')))
          with (lstrip (universal_newlines r')).
        apply IH. simpl in Hlen. lia.
      * change (lstrip (String LF (universal_newlines (String c' r'))))
          with (lstrip (universal_newlines (String c' r'))).
        apply IH. lia.
    + destruct (isspace c) eqn:Es.
      * simpl. rewrite Es. apply IH. lia.
      * simpl. rewrite Es, Ec. reflexivity.
Qed.

(** *** The scanning loop *)

Lemma scan_plain (lines : list string) :
  forall sessions current : list string,
    forallb plain_line lines = true ->
    fold_left scan_line lines (sessions, current, true) =
    (sessions, (current ++ lines)%list, true).
Proof.
  induction lines as [|l lines IH]; intros sessions current H.
  - simpl. rewrite app_nil_r. reflexivity.
  - simpl in H. apply andb_true_iff in H. destruct H as [Hl Hrest].
    unfold plain_line in Hl. apply andb_true_iff in Hl.
    destruct Hl as [Hm Hc]. apply negb_true_iff in Hm, Hc.
    unfold is_marker in Hm. unfold closing_line in Hc.
    cbn [fold_left]. unfold scan_line at 2. rewrite Hm, Hc.
    rewrite IH by exact Hrest. rewrite <- app_assoc. reflexivity.
Qed.

(** Scanning one well-delimited entry from any scanner state: an entry
    left open before it is closed off, this entry becomes the last
    session, and the scanner is left outside. *)
Lemma scan_entry
  (sessions current : list string) (in_session : bool)
  (marker closing : string) (body : list string) :
  is_marker marker = true ->
  forallb plain_line body = true ->
  is_marker closing = false ->
  startswith closing (str_mul "=" 60) = true ->
  fold_left scan_line (([marker] ++ body) ++ [closing])
            (sessions, current, in_session) =
  (((if nonempty current && in_session
     then sessions ++ [join_lines current] else sessions)
    ++ [join_lines (([marker] ++ body) ++ [closing])])%list,
   [], false).
Proof.
  intros Hm Hb Hc Hd.
  rewrite fold_left_app. cbn [app fold_left]. unfold scan_line at 3.
  fold (is_marker marker). rewrite Hm.
  set (sessions' := if nonempty current && in_session
                    then (sessions ++ [join_lines current])%list
                    else sessions).
  rewrite (scan_plain body sessions' [marker] Hb).
  unfold scan_line. fold (is_marker closing). rewrite Hc, Hd.
  reflexivity.
Qed.

(** *** Slices from the end *)

Lemma recent_of_positive (cap : Z) (sessions : list string) :
  1 <= cap -> recent_of cap sessions = lastn (Z.to_nat cap) sessions.
Proof.
  intros Hcap. unfold recent_of, lastn, slice_from.
  destruct sessions as [|s l]; [reflexivity |]. cbn [nonempty].
  destruct (Z.ltb_spec (- cap) 0) as [_ | H]; [| lia].
  f_equal. lia.
Qed.

Lemma lastn_length {A : Type} (k : nat) (l : list A) :
  List.length (lastn k l) = Nat.min (List.length l) k.
Proof. unfold lastn. rewrite length_skipn. lia. Qed.

Lemma lastn_snoc {A : Type} (k : nat) (l : list A) (x : A) :
  (1 <= k)%nat -> lastn k (l ++ [x]) = (lastn (k - 1) l ++ [x])%list.
Proof.
  intros Hk. unfold lastn. rewrite length_app. cbn [List.length].
  rewrite skipn_app.
  replace (List.length l + 1 - k)%nat with (List.length l - (k - 1))%nat by lia.
  replace (List.length l - (k - 1) - List.length l)%nat with 0%nat by lia.
  reflexivity.
Qed.

(** *** Timestamps *)

Lemma newline_free_app (a b : string) :
  newline_free (a ++ b) = newline_free a && newline_free b.
Proof.
  unfold newline_free. rewrite !has_char_app.
  destruct (has_char LF a), (has_char LF b), (has_char CR a), (has_char CR b);
    reflexivity.
Qed.

Lemma digit_newline_free (n : Z) (r : string) :
  newline_free (String (digit n) r) = newline_free r.
Proof.
  unfold digit. assert (H : (Z.to_nat (n mod 10) < 10)%nat).
  { pose proof (Z.mod_pos_bound n 10 ltac:(lia)). lia. }
  revert H. generalize (Z.to_nat (n mod 10)). intros k Hk.
  do 10 (destruct k as [|k]; [reflexivity |]). lia.
Qed.

Lemma pad2_newline_free (n : Z) : newline_free (pad2 n) = true.
Proof. unfold pad2. rewrite !digit_newline_free. reflexivity. Qed.

Lemma pad4_newline_free (n : Z) : newline_free (pad4 n) = true.
Proof.
  unfold pad4. rewrite !digit_newline_free. apply pad2_newline_free.
Qed.

Lemma strftime_date_newline_free (d : datetime) :
  newline_free (strftime d "%Y-%m-%d") = true.
Proof.
  change (strftime d "%Y-%m-%d")
    with (pad4 (year d) ++ "-" ++ pad2 (month d) ++ "-" ++ pad2 (day d) ++ "").
  rewrite !newline_free_app, pad4_newline_free, !pad2_newline_free.
  reflexivity.
Qed.

Lemma strftime_timestamp_newline_free (d : datetime) :
  newline_free (strftime d "%Y-%m-%d %H:%M:%S") = true.
Proof.
  change (strftime d "%Y-%m-%d %H:%M:%S")
    with (pad4 (year d) ++ "-" ++ pad2 (month d) ++ "-" ++ pad2 (day d) ++ " "
          ++ pad2 (hour d) ++ ":" ++ pad2 (minute d) ++ ":"
          ++ pad2 (second d) ++ "").
  rewrite !newline_free_app, pad4_newline_free, !pad2_newline_free.
  reflexivity.
Qed.

Lemma startswith_app (s r : string) : startswith (s ++ r) s = true.
Proof.
  induction s as [|c s IH]; simpl; [apply startswith_nil |].
  rewrite Ascii.eqb_refl. exact IH.
Qed.

Lemma str_in_unfold (sub s : string) :
  str_in sub s =
  startswith s sub
  || match s with EmptyString => false | String _ r => str_in sub r end.
Proof. destruct s; reflexivity. Qed.

Lemma str_in_middle (a sub b : string) : str_in sub (a ++ sub ++ b) = true.
Proof.
  induction a as [|c a IH].
  - simpl append. rewrite str_in_unfold, startswith_app. reflexivity.
  - simpl append. rewrite str_in_unfold, IH. apply orb_true_r.
Qed.

Lemma format_context_snoc (l : list string) (x : string) :
  format_context (l ++ [x]) = format_context l ++ x ++ nl ++ nl.
Proof. unfold format_context. rewrite fold_left_app. reflexivity. Qed.

(** *** The shape of the files *)

Lemma short_term_header_hash (body : string) :
  exists rest : string, written short_term_header ++ body = String "#" rest.
Proof. eexists. reflexivity. Qed.

Lemma long_term_header_hash (body : string) :
  exists rest : string, written long_term_header ++ body = String "#" rest.
Proof. eexists. reflexivity. Qed.

Lemma three_writes (marker summary closing : string) :
  written [nl ++ marker ++ nl; summary ++ nl; closing ++ nl] =
  String LF (marker ++
    String LF (summary ++ String LF (closing ++ String LF ""))).
Proof.
  unfold written, nl. cbn [String.concat]. cbn [append].
  rewrite !append_assoc. cbn [append]. reflexivity.
Qed.

Lemma long_term_entry_text (d t summary : string) :
  written (long_term_entry d t summary) =
  String LF (session_marker d t ++
    String LF (summary ++ String LF (closing_line ++ String LF ""))).
Proof. exact (three_writes (session_marker d t) summary closing_line). Qed.

Lemma session_marker_is_marker (d t : string) :
  is_marker (session_marker d t) = true.
Proof. reflexivity. Qed.

Lemma session_marker_newline_free (d t : string) :
  newline_free d = true -> newline_free t = true ->
  newline_free (session_marker d t) = true.
Proof.
  intros Hd Ht. unfold session_marker.
  rewrite !newline_free_app, Hd, Ht. reflexivity.
Qed.

Lemma newline_free_lf (s : string) : newline_free s = true -> has_char LF s = false.
Proof.
  unfold newline_free. intros H. apply andb_true_iff in H.
  destruct H as [H _]. now apply negb_true_iff in H.
Qed.

Lemma newline_free_cr (s : string) : newline_free s = true -> has_char CR s = false.
Proof.
  unfold newline_free. intros H. apply andb_true_iff in H.
  destruct H as [_ H]. now apply negb_true_iff in H.
Qed.

(** Re-parsing a store right after one entry was appended to it: whatever
    the store held, the last session found is the appended entry. *)
Lemma extract_after_append (prior d t summary : string) :
  newline_free d = true -> newline_free t = true ->
  has_char CR summary = false ->
  forallb plain_line (split_lines summary) = true ->
  exists earlier : list string,
    extract_sessions
      (universal_newlines (prior ++ written (long_term_entry d t summary))) =
    (earlier ++ [session_text d t summary])%list.
Proof.
  intros Hd Ht Hcr Hplain. rewrite long_term_entry_text.
  pose proof (session_marker_newline_free d t Hd Ht) as Hm.
  destruct (universal_newlines_before_lf (String.length prior) prior
              (session_marker d t ++
                 String LF (summary ++ String LF (closing_line ++ String LF "")))
              (le_n _)) as [x Hx].
  { rewrite !has_char_app. cbn [has_char]. rewrite !has_char_app.
    rewrite (newline_free_cr _ Hm), Hcr. reflexivity. }
  rewrite Hx. unfold extract_sessions.
  rewrite !split_lines_app.
  rewrite (split_lines_single (session_marker d t) (newline_free_lf _ Hm)).
  change (split_lines closing_line) with [closing_line].
  change (split_lines "") with [""].
  rewrite fold_left_app.
  rewrite (app_assoc [session_marker d t]), (app_assoc _ [closing_line] [""]).
  rewrite (fold_left_app scan_line _ [""]).
  destruct (fold_left scan_line (split_lines x) ([], [], false))
    as [[sessions current] in_session].
  rewrite (scan_entry sessions current in_session
             (session_marker d t) closing_line (split_lines summary)
             (session_marker_is_marker d t) Hplain eq_refl eq_refl).
  eexists. cbn [fold_left scan_line fst].
  rewrite join_session. reflexivity.
Qed.

(** *** A store of readable entries *)

Lemma entry_then_rest (e : Entry) (rest : string) :
  entry_written e ++ rest =
  String LF (session_marker (entry_date e) (entry_time e) ++
    String LF (entry_summary e ++ String LF (closing_line ++ String LF rest))).
Proof.
  unfold entry_written. rewrite long_term_entry_text.
  cbn [append]. rewrite !append_assoc. cbn [append].
  rewrite !append_assoc. cbn [append]. rewrite !append_assoc.
  reflexivity.
Qed.

Lemma readable_entry_parts (e : Entry) :
  readable_entry e = true ->
  newline_free (session_marker (entry_date e) (entry_time e)) = true
  /\ has_char CR (entry_summary e) = false
  /\ forallb plain_line (split_lines (entry_summary e)) = true.
Proof.
  unfold readable_entry. intros H.
  apply andb_true_iff in H. destruct H as [H Hplain].
  apply andb_true_iff in H. destruct H as [H Hcr].
  apply andb_true_iff in H. destruct H as [Hd Ht].
  apply negb_true_iff in Hcr.
  split; [apply session_marker_newline_free; assumption | split; assumption].
Qed.

Lemma store_of_no_cr (entries : list Entry) :
  forallb readable_entry entries = true ->
  has_char CR (store_of entries) = false.
Proof.
  induction entries as [|e es IH]; intros H; [reflexivity |].
  cbn [forallb] in H. apply andb_true_iff in H. destruct H as [He Hes].
  destruct (readable_entry_parts e He) as (Hm & Hcr & _).
  cbn [store_of]. rewrite entry_then_rest.
  cbn [has_char]. repeat (rewrite has_char_app; cbn [has_char]).
  rewrite (newline_free_cr _ Hm), Hcr, (IH Hes). reflexivity.
Qed.

(** The scanner reads a store of readable entries back entry by entry. *)
Lemma scan_store (entries : list Entry) :
  forallb readable_entry entries = true ->
  forall sessions : list string,
    fold_left scan_line (split_lines (store_of entries)) (sessions, [], false)
    = ((sessions ++ map entry_session entries)%list, [], false).
Proof.
  induction entries as [|e es IH]; intros H sessions.
  - cbn. rewrite app_nil_r. reflexivity.
  - cbn [forallb] in H. apply andb_true_iff in H. destruct H as [He Hes].
    destruct (readable_entry_parts e He) as (Hm & _ & Hplain).
    cbn [store_of]. rewrite entry_then_rest.
    change (split_lines (String LF ?x)) with (EmptyString :: split_lines x).
    rewrite !split_lines_app.
    rewrite (split_lines_single _ (newline_free_lf _ Hm)).
    change (split_lines closing_line) with [closing_line].
    cbn [fold_left]. change (scan_line (sessions, [], false) "")
      with (sessions, @nil string, false).
    rewrite (app_assoc [_]), (app_assoc _ [closing_line]).
    rewrite fold_left_app.
    rewrite (scan_entry sessions [] false _ closing_line _
               (session_marker_is_marker _ _) Hplain eq_refl eq_refl).
    cbn [nonempty andb]. rewrite (IH Hes). rewrite join_session.
    cbn [map]. rewrite <- app_assoc. reflexivity.
Qed.

Lemma extract_store (entries : list Entry) :
  forallb readable_entry entries = true ->
  extract_sessions (universal_newlines (store_of entries)) =
  map entry_session entries.
Proof.
  intros H. rewrite (universal_newlines_id _ (store_of_no_cr entries H)).
  unfold extract_sessions. rewrite (scan_store entries H). reflexivity.
Qed.

Lemma store_meaningful (e : Entry) (es : list Entry) :
  no_meaningful_content (universal_newlines (store_of (e :: es))) = false.
Proof.
  rewrite no_meaningful_content_lstrip.
  rewrite (lstrip_universal_newlines _ _ (le_n _)).
  cbn [store_of]. rewrite entry_then_rest. reflexivity.
Qed.

(** A store whose first visible character is not ['#'] passes the
    header test once an entry has been appended. *)
Lemma appended_store_meaningful (prior d t summary : string) :
  startswith (lstrip prior) "#" = false ->
  no_meaningful_content
    (universal_newlines (prior ++ written (long_term_entry d t summary)))
  = false.
Proof.
  intros Hp. rewrite no_meaningful_content_lstrip.
  rewrite (lstrip_universal_newlines _ _ (le_n _)), lstrip_app.
  destruct (all_space prior) eqn:Hs.
  - rewrite long_term_entry_text. reflexivity.
  - destruct (lstrip_head prior) as [E | (c & r & E & Hc)].
    + exfalso. exact (lstrip_all_space prior Hs E).
    + rewrite E in *. simpl in Hp. rewrite startswith_nil in Hp.
      simpl. destruct (Ascii.eqb c CR) eqn:Ec.
      * apply Ascii.eqb_eq in Ec. subst c. discriminate Hc.
      * simpl. rewrite startswith_nil. exact Hp.
Qed.

(* ================================================================== *)
(** ** Properties of the two stores *)
(* ================================================================== *)

Section Stores.

Variable clock : nat -> datetime.
Variable write_denied : Path -> bool.

(** What [save_to_long_term_memory] does when it is not skipped and the
    long-term store can be written: one entry is appended to the
    long-term store, and the settings are kept. *)
Lemma save_appends (llm : Llama) (w : State) (st summary : string) :
  short_term_file w = Some st ->
  no_meaningful_content (universal_newlines st) = false ->
  llm (long_term_request (universal_newlines st)) = Ok summary ->
  write_denied long_term_path = false ->
  let w1 := state_of (save_to_long_term_memory clock write_denied llm w) in
  long_term_file w1 =
    Some (raw_text (long_term_file w) ++
          written (long_term_entry
                     (strftime (clock (ticks w)) "%Y-%m-%d")
                     (strftime (clock (S (ticks w))) "%Y-%m-%d %H:%M:%S")
                     summary))
  /\ long_term_sessions w1 = long_term_sessions w.
Proof.
  intros Hf Hc Hllm Hden. unfold save_to_long_term_memory. run_method.
  rewrite Hf. simpl. rewrite Hf. rewrite Hc. simpl. rewrite Hllm. simpl.
  rewrite Hden. simpl.
  destruct (write_denied short_term_path); simpl; split; reflexivity.
Qed.

(** The same, when the short-term store can be written too: the
    short-term store is back to its two header lines and the session
    buffer is reset. *)
Lemma save_resets (llm : Llama) (w : State) (st summary : string) :
  short_term_file w = Some st ->
  no_meaningful_content (universal_newlines st) = false ->
  llm (long_term_request (universal_newlines st)) = Ok summary ->
  write_denied long_term_path = false ->
  write_denied short_term_path = false ->
  let r := save_to_long_term_memory clock write_denied llm w in
  value_of r = Ok tt
  /\ short_term_file (state_of r) = Some (written short_term_header)
  /\ message_buffer (state_of r) = []
  /\ message_counter (state_of r) = 0.
Proof.
  intros Hf Hc Hllm Hdl Hds. unfold save_to_long_term_memory. run_method.
  rewrite Hf. simpl. rewrite Hf. rewrite Hc. simpl. rewrite Hllm. simpl.
  rewrite Hdl. simpl. rewrite Hds. simpl. repeat split.
Qed.

(** [load_long_term_memory_context] reads the long-term store and the
    cap, and nothing else; it leaves the state as it was. *)
Lemma load_context_value (w : State) :
  load_long_term_memory_context w =
  (Ok (context_of (long_term_file w) (long_term_sessions w)), w).
Proof.
  unfold load_long_term_memory_context, context_of. run_method.
  destruct (long_term_file w) as [raw|] eqn:Hf; simpl; [| reflexivity].
  rewrite Hf. destruct (no_meaningful_content _); simpl; [reflexivity |].
  destruct (nonempty _); reflexivity.
Qed.

(** The value of [load_long_term_memory_context] on a store that passes
    the header test, for a positive cap: the last [min K cap] sessions
    found by the scanner, in the order of the file. *)
Lemma load_context_recent (w : State) (raw : string) :
  long_term_file w = Some raw ->
  no_meaningful_content (universal_newlines raw) = false ->
  1 <= long_term_sessions w ->
  extract_sessions (universal_newlines raw) <> [] ->
  let sessions := extract_sessions (universal_newlines raw) in
  let recent := lastn (Z.to_nat (long_term_sessions w)) sessions in
  load_long_term_memory_context w = (Ok (format_context recent), w)
  /\ List.length recent =
     Nat.min (List.length sessions) (Z.to_nat (long_term_sessions w)).
Proof.
  intros Hf Hc Hcap Hne. unfold load_long_term_memory_context. run_method.
  rewrite Hf. simpl. rewrite Hf. rewrite Hc. simpl.
  rewrite (recent_of_positive _ _ Hcap). split; [| apply lastn_length].
  destruct (lastn _ _) as [|s l] eqn:E; [| reflexivity].
  exfalso. apply (f_equal (@List.length string)) in E.
  rewrite lastn_length in E. simpl in E.
  destruct (extract_sessions (universal_newlines raw)); [congruence |].
  cbn [List.length] in E. lia.
Qed.

(** X16.  On a store without header lines that holds [K] readable
    entries, and for a cap [C] of at least 1,
    [load_long_term_memory_context] returns the last [min K C] entries,
    oldest first. *)
Lemma load_context_of_store (w : State) (e : Entry) (es : list Entry) :
  long_term_file w = Some (store_of (e :: es)) ->
  forallb readable_entry (e :: es) = true ->
  1 <= long_term_sessions w ->
  let recent := lastn (Z.to_nat (long_term_sessions w))
                      (map entry_session (e :: es)) in
  load_long_term_memory_context w = (Ok (format_context recent), w)
  /\ List.length recent =
     Nat.min (List.length (e :: es)) (Z.to_nat (long_term_sessions w)).
Proof.
  intros Hf Hr Hcap recent.
  destruct (load_context_recent w _ Hf (store_meaningful e es) Hcap)
    as [Hl Hn].
  { rewrite (extract_store _ Hr). discriminate. }
  rewrite (extract_store _ Hr) in Hl, Hn.
  rewrite length_map in Hn. split; assumption.
Qed.

(** Re-parsing right after an append, at the level of the file. *)
Lemma reparse_after_append (w : State) (d t summary : string) :
  newline_free d = true -> newline_free t = true ->
  startswith (lstrip (raw_text (long_term_file w))) "#" = false ->
  has_char CR summary = false ->
  forallb plain_line (split_lines summary) = true ->
  1 <= long_term_sessions w ->
  let w1 := with_long_term_file
              (Some (raw_text (long_term_file w) ++
                     written (long_term_entry d t summary))) w in
  exists earlier : list string,
    load_long_term_memory_context w1 =
    (Ok (format_context (earlier ++ [session_text d t summary])), w1).
Proof.
  intros Hd Ht Hp Hcr Hplain Hcap w1.
  destruct (extract_after_append (raw_text (long_term_file w)) d t summary
              Hd Ht Hcr Hplain) as [earlier He].
  destruct (load_context_recent w1 _ eq_refl
              (appended_store_meaningful _ d t summary Hp) Hcap) as [Hl _].
  { rewrite He. destruct earlier; discriminate. }
  rewrite Hl, He.
  rewrite lastn_snoc by (change (long_term_sessions w1)
                           with (long_term_sessions w); lia).
  eexists. reflexivity.
Qed.

(** The round trip on a store that passes the header test.  Let
    consolidation run on a short-term store that is not skipped, with a model that answers [summary] and a long-term store
    that can be written.  If the long-term store does not begin with ['#']
    after leading whitespace, the summary has no carriage return and no
    line that reads as an opening marker or as a closing delimiter, and the
    cap is at least 1, then [load_long_term_memory_context] on the state
    reached returns a context whose last session is the marker line, the
    summary unchanged and the closing line; so the summary occurs in it. *)
Theorem long_term_roundtrip (llm : Llama) (w : State) (st summary : string) :
  short_term_file w = Some st ->
  no_meaningful_content (universal_newlines st) = false ->
  llm (long_term_request (universal_newlines st)) = Ok summary ->
  write_denied long_term_path = false ->
  startswith (lstrip (raw_text (long_term_file w))) "#" = false ->
  has_char CR summary = false ->
  forallb plain_line (split_lines summary) = true ->
  1 <= long_term_sessions w ->
  let w1 := state_of (save_to_long_term_memory clock write_denied llm w) in
  let d := strftime (clock (ticks w)) "%Y-%m-%d" in
  let t := strftime (clock (S (ticks w))) "%Y-%m-%d %H:%M:%S" in
  exists (context : string) (earlier : list string),
    value_of (load_long_term_memory_context w1) = Ok context
    /\ context = format_context (earlier ++ [session_text d t summary])
    /\ str_in summary context = true.
Proof.
  intros Hf Hc Hllm Hden Hp Hcr Hplain Hcap w1 d t.
  destruct (save_appends llm w st summary Hf Hc Hllm Hden) as [Hfile Hcap1].
  fold w1 d t in Hfile, Hcap1.
  destruct (reparse_after_append w d t summary
              (strftime_date_newline_free _)
              (strftime_timestamp_newline_free _) Hp Hcr Hplain Hcap)
    as [earlier He].
  rewrite load_context_value in He. injection He as He.
  exists (format_context (earlier ++ [session_text d t summary])), earlier.
  split; [| split; [reflexivity |]].
  - rewrite load_context_value, Hfile, Hcap1. unfold value_of. cbn [fst].
    f_equal. exact He.
  - rewrite format_context_snoc. unfold session_text.
    rewrite !append_assoc.
    rewrite <- (append_assoc (format_context earlier)).
    rewrite <- (append_assoc _ nl).
    apply str_in_middle.
Qed.

End Stores.

(* ================================================================== *)
(** ** The header test on stores written by the program *)
(* ================================================================== *)

Section HeaderTest.

Variable clock : nat -> datetime.
Variable write_denied : Path -> bool.

(** [save_to_long_term_memory] on a short-term store that the header test
    takes to have no entries: nothing happens. *)
Lemma save_skipped (llm : Llama) (w : State) (raw : string) :
  short_term_file w = Some raw ->
  no_meaningful_content (universal_newlines raw) = true ->
  save_to_long_term_memory clock write_denied llm w = (Ok tt, w).
Proof.
  intros Hf Hc. unfold save_to_long_term_memory. run_method.
  rewrite Hf. simpl. rewrite Hf, Hc. reflexivity.
Qed.

(** C1, at the failing input.  A short-term store made of the two header
    lines followed by any text, in particular by the entries that
    [summarize_short_term_memory] appended, is skipped by
    [save_to_long_term_memory]: it returns without calling the model,
    without writing an entry to the long-term store and without resetting
    the short-term store. *)
Theorem consolidation_skips_headed_store
  (llm : Llama) (w : State) (body : string) :
  let w0 := with_short_term_file
              (Some (written short_term_header ++ body)) w in
  save_to_long_term_memory clock write_denied llm w0 = (Ok tt, w0).
Proof.
  intros w0. apply (save_skipped llm w0 _ eq_refl).
  destruct (short_term_header_hash body) as [rest Hrest].
  rewrite Hrest. apply hash_first_no_content.
Qed.

End HeaderTest.

(** [get_short_term_memory_context] with an empty buffer and a short-term
    store that is present. *)
Lemma short_term_context_of_store (w : State) (raw : string) :
  message_buffer w = [] ->
  short_term_file w = Some raw ->
  get_short_term_memory_context w =
  (Ok (let content := universal_newlines raw in
       if truthy content && negb (startswith (strip content) "#")
       then content else ""), w).
Proof.
  intros Hb Hf. unfold get_short_term_memory_context.
  unfold bind, ret, gets, exists_, read_file; simpl.
  rewrite Hb. simpl. rewrite Hf. simpl. rewrite Hf.
  destruct (truthy _ && _); reflexivity.
Qed.

(** C4, at the failing input.  With an empty session buffer and a
    short-term store made of the two header lines followed by any text, in
    particular by summaries of the same session,
    [get_short_term_memory_context] returns the empty string. *)
Theorem short_term_context_hides_headed_store (w : State) (body : string) :
  let w0 := with_session (message_counter w) []
              (with_short_term_file
                 (Some (written short_term_header ++ body)) w) in
  get_short_term_memory_context w0 = (Ok "", w0).
Proof.
  intros w0.
  rewrite (short_term_context_of_store w0 _ eq_refl eq_refl). cbv zeta.
  destruct (short_term_header_hash body) as [rest Hrest]. rewrite Hrest.
  rewrite (strip_first _ "#"). simpl. rewrite startswith_nil. reflexivity.
Qed.

(** The value of [get_long_term_history] in every case. *)
Lemma get_long_term_history_value (w : State) :
  get_long_term_history w =
  (Ok match long_term_file w with
      | None => "No long-term memory found."
      | Some raw =>
          if no_meaningful_content (universal_newlines raw)
          then "No previous session summaries found."
          else universal_newlines raw
      end, w).
Proof.
  unfold get_long_term_history.
  unfold bind, ret, gets, exists_, read_file; simpl.
  destruct (long_term_file w) as [raw|] eqn:Hf; simpl; [| reflexivity].
  rewrite Hf. destruct (no_meaningful_content _); reflexivity.
Qed.

(** C5, at the failing input.  On a long-term store made of the two
    header lines followed by any text, in particular by session entries,
    [get_long_term_history] returns the sentinel of a store without
    summaries. *)
Theorem history_hides_headed_store (w : State) (body : string) :
  let w0 := with_long_term_file
              (Some (written long_term_header ++ body)) w in
  get_long_term_history w0 = (Ok "No previous session summaries found.", w0).
Proof.
  intros w0. rewrite get_long_term_history_value.
  cbn [w0 with_long_term_file long_term_file].
  destruct (long_term_header_hash body) as [rest Hrest].
  rewrite Hrest, hash_first_no_content. reflexivity.
Qed.

(** C2, at the failing inputs.  (1) On a long-term store made of the two
    header lines followed by any number of entries,
    [load_long_term_memory_context] returns the empty string, whatever the
    cap; (2) on the header followed by one entry the scanner itself finds
    that entry, so K = 1 there; (3) with a cap of 0, on a store of two
    entries without header, both entries are returned. *)
Theorem load_context_failing_inputs :
  (forall (w : State) (entries : list Entry),
      let w0 := with_long_term_file
                  (Some (written long_term_header ++ store_of entries)) w in
      load_long_term_memory_context w0 = (Ok "", w0))
  /\ extract_sessions
       (universal_newlines
          (written long_term_header ++ store_of [oatmeal_entry]))
     = [entry_session oatmeal_entry]
  /\ value_of
       (load_long_term_memory_context
          (sample_state 0 (Some (store_of [oatmeal_entry; lentil_entry]))))
     = Ok (format_context
             [entry_session oatmeal_entry; entry_session lentil_entry]).
Proof.
  split; [| split].
  - intros w entries w0. rewrite load_context_value. unfold context_of.
    cbn [w0 with_long_term_file long_term_file].
    destruct (long_term_header_hash (store_of entries)) as [rest Hrest].
    rewrite Hrest, hash_first_no_content. reflexivity.
  - vm_compute. reflexivity.
  - vm_compute. reflexivity.
Qed.

(** C3, at the failing input.  (1) On a long-term store that begins with
    the two header lines, as every store that the program creates does,
    re-parsing right after the entry of any summary was appended gives
    the empty string: the summary is not recovered.  (2) On the store
    that the program created, a consolidation appends the entry of a
    one-line summary; the scanning loop alone finds that entry with the
    summary unchanged, and [load_long_term_memory_context] returns the
    empty string. *)
Theorem roundtrip_lost_on_headed_store :
  (forall (w : State) (body d t summary : string),
      let w1 := with_long_term_file
                  (Some ((written long_term_header ++ body) ++
                         written (long_term_entry d t summary))) w in
      load_long_term_memory_context w1 = (Ok "", w1))
  /\ (let w1 := state_of (save_to_long_term_memory sample_clock allow_writes
                            (sample_llm session_summary)
                            headed_long_term_state) in
      long_term_file w1 =
        Some (written long_term_header ++
              written (long_term_entry "2024-01-05" "2024-01-05 09:03:01"
                         session_summary))
      /\ extract_sessions (universal_newlines (raw_text (long_term_file w1))) =
         [session_text "2024-01-05" "2024-01-05 09:03:01" session_summary]
      /\ str_in session_summary
           (session_text "2024-01-05" "2024-01-05 09:03:01" session_summary)
         = true
      /\ load_long_term_memory_context w1 = (Ok "", w1)).
Proof.
  split.
  - intros w body d t summary w1. rewrite load_context_value.
    unfold context_of. cbn [w1 with_long_term_file long_term_file].
    rewrite append_assoc.
    destruct (long_term_header_hash
                (body ++ written (long_term_entry d t summary)))
      as [rest Hrest].
    rewrite Hrest, hash_first_no_content. reflexivity.
  - vm_compute. repeat split.
Qed.

(* ================================================================== *)
(** ** Runs on concrete sessions *)
(* ================================================================== *)

(** A session run by the program from a machine without stores: after one
    summarisation the short-term store holds the header and one entry, and
    consolidation at the end of the session leaves both stores and the log
    of inference calls as they were. *)
Example session_never_consolidated :
  let w := state_of (one_exchange (sample_llm session_summary) no_files) in
  short_term_file w =
    Some (written short_term_header ++
          written (short_term_entry "2024-01-05 09:03:00" batch_summary))
  /\ long_term_file w = Some (written long_term_header)
  /\ save_to_long_term_memory sample_clock allow_writes
       (sample_llm session_summary) w = (Ok tt, w).
Proof. vm_compute. repeat split. Qed.

(** A summary that holds a delimiter line.  On stores without header
    lines, consolidation
    writes an entry whose summary holds a line of sixty ['=']; re-parsing
    right after gives back the entry cut at that line, and the summary
    does not occur in the context returned. *)
Lemma roundtrip_counterexample :
  let w1 := state_of (save_to_long_term_memory sample_clock allow_writes
                        (sample_llm delimited_summary) headerless_state) in
  long_term_file w1 =
    Some (written (long_term_entry "2024-01-05" "2024-01-05 09:03:01"
                     delimited_summary))
  /\ value_of (load_long_term_memory_context w1) =
     Ok (format_context
           [session_text "2024-01-05" "2024-01-05 09:03:01"
              "Breakfast: oatmeal"])
  /\ str_in delimited_summary
       (format_context
          [session_text "2024-01-05" "2024-01-05 09:03:01"
             "Breakfast: oatmeal"]) = false.
Proof. vm_compute. repeat split. Qed.

(** The round trip on the stores without header lines, with a summary of
    one line. *)
Lemma long_term_roundtrip_witness :
  exists (context : string) (earlier : list string),
    value_of (load_long_term_memory_context
                (state_of (save_to_long_term_memory sample_clock allow_writes
                             (sample_llm session_summary) headerless_state)))
    = Ok context
    /\ context =
       format_context
         (earlier ++ [session_text "2024-01-05" "2024-01-05 09:03:01"
                        session_summary])
    /\ str_in session_summary context = true.
Proof.
  apply (long_term_roundtrip sample_clock allow_writes
           (sample_llm session_summary) headerless_state
           (written (short_term_entry "2024-01-05 09:00:00" batch_summary))
           session_summary);
    first [reflexivity | simpl; lia].
Defined.

(** Threshold 3: two exchanges stay below it, a third user message
    reaches it. *)
Lemma should_summarize_threshold_witness :
  (forall k : nat,
      value_of (should_summarize
                  (add_messages (firstn k two_exchanges)
                     (sample_state 3 None))) = Ok false)
  /\ value_of (should_summarize
                 (add_messages
                    (two_exchanges ++ [mkMessage "user" "And for dinner?"])
                    (sample_state 3 None))) = Ok true.
Proof.
  destruct (should_summarize_threshold (sample_state 3 None) two_exchanges
              eq_refl) as [Hbelow [Hat _]].
  split.
  - apply Hbelow. reflexivity.
  - apply Hat. reflexivity.
Defined.

(** Adding a message with a role that is neither ["user"] nor
    ["assistant"] to a buffer of two exchanges. *)
Lemma counter_invariant_preserved_witness :
  counter_invariant
    (run_operation sample_clock allow_writes
       (op_add_message "system" "You are a dietary assistant.")
       buffered_state).
Proof.
  apply (counter_invariant_preserved sample_clock allow_writes
           (op_add_message "system" "You are a dietary assistant.")
           buffered_state).
  reflexivity.
Defined.

(** Summarising with nothing buffered. *)
Lemma summarize_empty_buffer_witness :
  summarize_short_term_memory sample_clock allow_writes
    (sample_llm session_summary) (sample_state 3 None)
  = (Ok "", sample_state 3 None).
Proof.
  apply (summarize_empty_buffer sample_clock allow_writes
           (sample_llm session_summary) (sample_state 3 None)).
  reflexivity.
Defined.

(** Summarising two exchanges when the short-term store cannot be
    opened for writing. *)
Lemma summarize_write_failure_witness :
  let r := summarize_short_term_memory sample_clock deny_writes
             (sample_llm session_summary) buffered_state in
  value_of r = Raise OSError
  /\ message_buffer (state_of r) = two_exchanges
  /\ message_counter (state_of r) = 2
  /\ short_term_file (state_of r) = Some (written short_term_header).
Proof.
  apply (summarize_write_failure sample_clock deny_writes
           (sample_llm session_summary) buffered_state batch_summary);
    reflexivity.
Defined.


(* ================================================================== *)
(** ** The entry written by a summarisation *)
(* ================================================================== *)

(** The three writes of a short-term entry give a line break and the
    entry of the file format. *)
Lemma short_term_entry_written (timestamp summary : string) :
  written (short_term_entry timestamp summary) =
  nl ++ summary_entry_text timestamp summary.
Proof.
  unfold written, short_term_entry, summary_entry_text, separator_line.
  cbn [String.concat]. change (str_mul "-" 50) with "--------------------------------------------------".
  rewrite !append_assoc. cbn [append]. reflexivity.
Qed.

Lemma append_empty_r (a : string) : a ++ "" = a.
Proof. induction a as [|x a IH]; simpl; [reflexivity | now rewrite IH]. Qed.

Lemma short_term_entries_text_snoc
  (entries : list (string * string)) (timestamp summary : string) :
  short_term_entries_text (entries ++ [(timestamp, summary)]) =
  short_term_entries_text entries ++ nl ++ summary_entry_text timestamp summary.
Proof.
  induction entries as [|[t s] rest IH].
  - change (short_term_entries_text ([] ++ [(timestamp, summary)]))
      with (nl ++ summary_entry_text timestamp summary ++ "").
    rewrite append_empty_r. reflexivity.
  - change (short_term_entries_text (((t, s) :: rest) ++ [(timestamp, summary)]))
      with (nl ++ summary_entry_text t s ++
            short_term_entries_text (rest ++ [(timestamp, summary)])).
    rewrite IH.
    change (short_term_entries_text ((t, s) :: rest))
      with (nl ++ summary_entry_text t s ++ short_term_entries_text rest).
    rewrite !append_assoc. reflexivity.
Qed.

Section Summarisation.

Variable clock : nat -> datetime.
Variable write_denied : Path -> bool.

(** C6.  When the buffer is not empty, the model answers with a summary and
    the short-term store can be written, [summarize_short_term_memory]
    returns the summary, leaves the buffer empty and the counter at 0, and
    the short-term store is what it was followed by a line break and
    exactly one entry: the marker line with the timestamp read from the
    clock, the summary, and the separator line of fifty ['-'].  So a store
    that held a sequence of entries after some text holds that sequence
    with this entry added at its end, one entry more. *)
Theorem summarize_appends_one_entry
  (llm : Llama) (w : State) (summary : string) :
  nonempty (message_buffer w) = true ->
  llm (short_term_request (short_term_limit w) (message_buffer w)) = Ok summary ->
  write_denied short_term_path = false ->
  let r := summarize_short_term_memory clock write_denied llm w in
  let timestamp := strftime (clock (ticks w)) "%Y-%m-%d %H:%M:%S" in
  value_of r = Ok summary
  /\ message_buffer (state_of r) = []
  /\ message_counter (state_of r) = 0
  /\ short_term_file (state_of r) =
       Some (raw_text (short_term_file w) ++ nl
             ++ "--- Summary (" ++ timestamp ++ ") ---" ++ nl
             ++ summary ++ nl
             ++ "--------------------------------------------------" ++ nl)
  /\ (forall (prefix : string) (entries : list (string * string)),
        raw_text (short_term_file w) =
          prefix ++ short_term_entries_text entries ->
        short_term_file (state_of r) =
          Some (prefix ++
                short_term_entries_text (entries ++ [(timestamp, summary)]))
        /\ List.length (entries ++ [(timestamp, summary)]) =
           S (List.length entries))
  /\ long_term_file (state_of r) = long_term_file w.
Proof.
  intros Hb Hllm Hden r timestamp.
  assert (Hfile : short_term_file (state_of r) =
                  Some (raw_text (short_term_file w) ++
                        written (short_term_entry timestamp summary))
                  /\ value_of r = Ok summary
                  /\ message_buffer (state_of r) = []
                  /\ message_counter (state_of r) = 0
                  /\ long_term_file (state_of r) = long_term_file w).
  { unfold r, timestamp, summarize_short_term_memory. run_method.
    destruct (message_buffer w) as [|m b] eqn:E; [discriminate |]. simpl.
    rewrite Hllm. simpl. rewrite Hden. simpl. repeat split; auto. }
  destruct Hfile as (Hfile & Hv & Hbuf & Hcnt & Hlt).
  rewrite short_term_entry_written in Hfile.
  split; [exact Hv |]. split; [exact Hbuf |]. split; [exact Hcnt |].
  split; [exact Hfile |]. split; [| exact Hlt].
  intros prefix entries Hold. split.
  - rewrite Hfile, Hold, short_term_entries_text_snoc, !append_assoc.
    reflexivity.
  - rewrite length_app. cbn [List.length]. lia.
Qed.

End Summarisation.

(** Summarising two exchanges into a store that holds the header and one
    entry: it then holds the header and two entries. *)
Lemma summarize_appends_one_entry_witness :
  let r := summarize_short_term_memory sample_clock allow_writes
             (sample_llm session_summary) summarised_state in
  value_of r = Ok batch_summary
  /\ message_buffer (state_of r) = []
  /\ message_counter (state_of r) = 0
  /\ short_term_file (state_of r) =
       Some (written short_term_header ++
             short_term_entries_text
               [ ("2024-01-05 08:00:00", "Porridge.");
                 ("2024-01-05 09:03:00", batch_summary) ])
  /\ long_term_file (state_of r) = Some (written long_term_header).
Proof.
  destruct (summarize_appends_one_entry sample_clock allow_writes
              (sample_llm session_summary) summarised_state batch_summary
              eq_refl eq_refl eq_refl)
    as (Hv & Hb & Hc & _ & Hentries & Hlt).
  destruct (Hentries (written short_term_header)
              [("2024-01-05 08:00:00", "Porridge.")] eq_refl) as [Hfile _].
  split; [exact Hv |]. split; [exact Hb |]. split; [exact Hc |].
  split; [exact Hfile | exact Hlt].
Defined.

(* ================================================================== *)
(** ** Further properties: construction, clearing and failures *)
(* ================================================================== *)

Section Lifecycle.

Variable clock : nat -> datetime.
Variable write_denied : Path -> bool.

(** What a store holds after [_ensure_memory_files]: its former content,
    or the header when it was absent. *)
Lemma ensure_state (w : State) :
  write_denied short_term_path = false ->
  write_denied long_term_path = false ->
  _ensure_memory_files write_denied w =
  (Ok tt,
   with_long_term_file
     (Some (match long_term_file w with
            | Some raw => raw
            | None => written long_term_header
            end))
     (with_short_term_file
        (Some (match short_term_file w with
               | Some raw => raw
               | None => written short_term_header
               end)) w)).
Proof.
  intros Hs Hl. unfold _ensure_memory_files. run_method.
  destruct w as [lim cap cnt buf st lt calls tk]. simpl.
  destruct st as [st|], lt as [lt|]; simpl; rewrite ?Hs, ?Hl; reflexivity.
Qed.

(** X1.  When the stores can be written, [_ensure_memory_files] creates an
    absent store with its two header lines and leaves a store that exists
    exactly as it is, whatever it holds; the session buffer and the
    counter are untouched, and running it again changes nothing. *)
Theorem ensure_memory_files_keeps_existing (w : State) :
  write_denied short_term_path = false ->
  write_denied long_term_path = false ->
  let r := _ensure_memory_files write_denied w in
  value_of r = Ok tt
  /\ short_term_file (state_of r) =
     Some (match short_term_file w with
           | Some raw => raw
           | None => written short_term_header
           end)
  /\ long_term_file (state_of r) =
     Some (match long_term_file w with
           | Some raw => raw
           | None => written long_term_header
           end)
  /\ message_buffer (state_of r) = message_buffer w
  /\ message_counter (state_of r) = message_counter w
  /\ _ensure_memory_files write_denied (state_of r) = (Ok tt, state_of r).
Proof.
  intros Hs Hl r. unfold r. rewrite (ensure_state w Hs Hl).
  unfold value_of, state_of. cbn [fst snd].
  repeat split.
Qed.

(** X2.  Construction with the settings [limit] and [sessions] starts a
    session with an empty buffer and a counter of 0, keeps a long-term
    store that exists, and the context read next is the one of that
    store. *)
Theorem init_resets_session_keeps_stores (limit sessions : Z) (w : State) :
  write_denied short_term_path = false ->
  write_denied long_term_path = false ->
  let r := init write_denied limit sessions w in
  value_of r = Ok tt
  /\ short_term_limit (state_of r) = limit
  /\ long_term_sessions (state_of r) = sessions
  /\ message_buffer (state_of r) = []
  /\ message_counter (state_of r) = 0
  /\ (forall raw, long_term_file w = Some raw ->
        long_term_file (state_of r) = Some raw
        /\ value_of (load_long_term_memory_context (state_of r)) =
           Ok (context_of (Some raw) sessions)).
Proof.
  intros Hs Hl r. unfold r, init. unfold bind, modify. cbv beta iota.
  rewrite ensure_state by assumption.
  unfold value_of, state_of. cbn [fst snd].
  split; [reflexivity |]. split; [reflexivity |]. split; [reflexivity |].
  split; [reflexivity |]. split; [reflexivity |].
  intros raw Hraw. split.
  - cbn. rewrite Hraw. reflexivity.
  - rewrite load_context_value. cbn -[context_of]. rewrite Hraw. reflexivity.
Qed.

(** X3.  After [clear_short_term_memory], when the short-term store can be
    written: the buffer is empty, the counter is 0, the short-term store
    is its two header lines, the long-term store and the log of inference
    calls are as before; the short-term context is then empty and a
    consolidation changes nothing. *)
Theorem clear_discards_session (llm : Llama) (w : State) :
  write_denied short_term_path = false ->
  let r := clear_short_term_memory write_denied w in
  let w1 := state_of r in
  value_of r = Ok tt
  /\ message_buffer w1 = [] /\ message_counter w1 = 0
  /\ short_term_file w1 = Some (written short_term_header)
  /\ long_term_file w1 = long_term_file w
  /\ llm_calls w1 = llm_calls w
  /\ get_short_term_memory_context w1 = (Ok "", w1)
  /\ save_to_long_term_memory clock write_denied llm w1 = (Ok tt, w1).
Proof.
  intros Hs r w1. unfold w1, r, clear_short_term_memory. run_method.
  rewrite Hs. simpl. repeat split.
Qed.

(** X4.  When the short-term store cannot be opened for writing,
    [clear_short_term_memory] raises the I/O error after the buffer and
    the counter were reset: the store keeps its content, the messages
    that were buffered are gone. *)
Theorem clear_write_failure (w : State) :
  write_denied short_term_path = true ->
  let r := clear_short_term_memory write_denied w in
  value_of r = Raise OSError
  /\ message_buffer (state_of r) = []
  /\ message_counter (state_of r) = 0
  /\ short_term_file (state_of r) = short_term_file w
  /\ long_term_file (state_of r) = long_term_file w.
Proof.
  intros Hs. unfold clear_short_term_memory. run_method.
  rewrite Hs. simpl. repeat split.
Qed.

(** X5.  When the model raises during [summarize_short_term_memory], the
    exception leaves the method: no entry is written, both stores, the
    buffer and the counter keep their values, and the request is the only
    addition to the log. *)
Theorem summarize_inference_failure (llm : Llama) (w : State) (e : exn) :
  nonempty (message_buffer w) = true ->
  llm (short_term_request (short_term_limit w) (message_buffer w)) = Raise e ->
  let r := summarize_short_term_memory clock write_denied llm w in
  value_of r = Raise e
  /\ message_buffer (state_of r) = message_buffer w
  /\ message_counter (state_of r) = message_counter w
  /\ short_term_file (state_of r) = short_term_file w
  /\ long_term_file (state_of r) = long_term_file w
  /\ llm_calls (state_of r) =
     (llm_calls w ++
        [short_term_request (short_term_limit w) (message_buffer w)])%list.
Proof.
  intros Hb Hllm. unfold summarize_short_term_memory. run_method.
  destruct (message_buffer w) as [|m b] eqn:E; [discriminate |]. simpl.
  rewrite Hllm. simpl. repeat split; auto.
Qed.

End Lifecycle.

(* ================================================================== *)
(** ** Further properties: summarisation window and consolidation *)
(* ================================================================== *)

Lemma all_space_lstrip (s : string) : all_space s = true -> lstrip s = "".
Proof.
  induction s as [|c r IH]; simpl; intros H; [reflexivity |].
  apply andb_true_iff in H. destruct H as [Hc Hr]. rewrite Hc. exact (IH Hr).
Qed.

Lemma append_nil_r (a : string) : a ++ "" = a.
Proof. induction a as [|x a IH]; simpl; [reflexivity | now rewrite IH]. Qed.

Lemma slice_from_suffix {A : Type} (k : Z) (older recent : list A) :
  1 <= k -> Z.of_nat (List.length recent) = k ->
  slice_from (- k) (older ++ recent) = recent.
Proof.
  intros Hk Hlen. unfold slice_from.
  destruct (Z.ltb_spec (- k) 0) as [_ | H]; [| lia].
  rewrite length_app.
  replace (Z.to_nat (Z.max (- k + Z.of_nat (List.length older + List.length recent)) 0))
    with (List.length older) by lia.
  rewrite skipn_app, skipn_all, Nat.sub_diag. reflexivity.
Qed.

(** X6.  The request that [summarize_short_term_memory] sends for a buffer
    of more than [short_term_limit] messages is the request for its last
    [short_term_limit] messages alone: the older messages are not part of
    the transcript. *)
Theorem summary_request_covers_last_messages
  (limit : Z) (older recent : list Message) :
  1 <= limit ->
  Z.of_nat (List.length recent) = limit ->
  short_term_request limit (older ++ recent) = short_term_request limit recent.
Proof.
  intros Hk Hlen. unfold short_term_request.
  rewrite (slice_from_suffix limit older recent Hk Hlen).
  pose proof (slice_from_suffix limit [] recent Hk Hlen) as Hself.
  cbn [app] in Hself. rewrite Hself. reflexivity.
Qed.

Section Consolidation.

Variable clock : nat -> datetime.
Variable write_denied : Path -> bool.


(** X8.  [save_to_long_term_memory] returns at once, leaving the whole
    state as it was and calling no model, when the short-term store is
    absent, holds only whitespace, or has ['#'] as its first visible
    character. *)
Theorem consolidation_skipped (llm : Llama) (w : State) :
  (short_term_file w = None
   \/ exists raw : string,
        short_term_file w = Some raw
        /\ (all_space (universal_newlines raw) = true
            \/ startswith (lstrip (universal_newlines raw)) "#" = true)) ->
  save_to_long_term_memory clock write_denied llm w = (Ok tt, w).
Proof.
  intros [Hnone | (raw & Hf & Hcase)].
  - unfold save_to_long_term_memory. run_method. rewrite Hnone. reflexivity.
  - unfold save_to_long_term_memory. run_method.
    rewrite Hf. simpl. rewrite Hf.
    rewrite no_meaningful_content_lstrip.
    destruct Hcase as [Hsp | Hhash].
    + rewrite (all_space_lstrip _ Hsp). reflexivity.
    + rewrite Hhash, orb_true_r. reflexivity.
Qed.

(** X9.  When consolidation is not skipped and either the model raises or
    the long-term store cannot be opened, [save_to_long_term_memory]
    raises and nothing is lost: both stores, the buffer and the counter
    keep their values. *)
Theorem consolidation_failure_keeps_stores
  (llm : Llama) (w : State) (st : string) :
  short_term_file w = Some st ->
  no_meaningful_content (universal_newlines st) = false ->
  ((exists e, llm (long_term_request (universal_newlines st)) = Raise e)
   \/ write_denied long_term_path = true) ->
  let r := save_to_long_term_memory clock write_denied llm w in
  (exists e, value_of r = Raise e)
  /\ short_term_file (state_of r) = short_term_file w
  /\ long_term_file (state_of r) = long_term_file w
  /\ message_buffer (state_of r) = message_buffer w
  /\ message_counter (state_of r) = message_counter w.
Proof.
  intros Hf Hc Hfail. unfold save_to_long_term_memory. run_method.
  rewrite Hf. simpl. rewrite Hf. rewrite Hc. simpl.
  destruct Hfail as [[e He] | Hden].
  - rewrite He. simpl. rewrite Hf. repeat split; eauto.
  - destruct (llm _) as [s | e]; simpl.
    + rewrite Hden. simpl. rewrite Hf. repeat split; eauto.
    + rewrite Hf. repeat split; eauto.
Qed.

(** X10.  When the entry was appended to the long-term store and the
    short-term store then cannot be opened for the reset,
    [save_to_long_term_memory] raises the I/O error with the entry in
    place: the short-term store still holds the summaries that were
    consolidated, and the buffer and the counter are not reset. *)
Theorem consolidation_reset_failure
  (llm : Llama) (w : State) (st summary : string) :
  short_term_file w = Some st ->
  no_meaningful_content (universal_newlines st) = false ->
  llm (long_term_request (universal_newlines st)) = Ok summary ->
  write_denied long_term_path = false ->
  write_denied short_term_path = true ->
  let r := save_to_long_term_memory clock write_denied llm w in
  value_of r = Raise OSError
  /\ long_term_file (state_of r) =
     Some (raw_text (long_term_file w) ++
           written (long_term_entry
                      (strftime (clock (ticks w)) "%Y-%m-%d")
                      (strftime (clock (S (ticks w))) "%Y-%m-%d %H:%M:%S")
                      summary))
  /\ short_term_file (state_of r) = Some st
  /\ message_buffer (state_of r) = message_buffer w
  /\ message_counter (state_of r) = message_counter w.
Proof.
  intros Hf Hc Hllm Hdl Hds. unfold save_to_long_term_memory. run_method.
  rewrite Hf. simpl. rewrite Hf. rewrite Hc. simpl. rewrite Hllm. simpl.
  rewrite Hdl. simpl. rewrite Hds. simpl. rewrite Hf. repeat split.
Qed.

(** X11.  A consolidation that succeeded is not repeated: right after it,
    another call of [save_to_long_term_memory], with any model, changes
    nothing and calls no model. *)
Theorem consolidation_runs_once
  (llm llm' : Llama) (w : State) (st summary : string) :
  short_term_file w = Some st ->
  no_meaningful_content (universal_newlines st) = false ->
  llm (long_term_request (universal_newlines st)) = Ok summary ->
  write_denied long_term_path = false ->
  write_denied short_term_path = false ->
  let w1 := state_of (save_to_long_term_memory clock write_denied llm w) in
  save_to_long_term_memory clock write_denied llm' w1 = (Ok tt, w1).
Proof.
  intros Hf Hc Hllm Hdl Hds w1.
  destruct (save_resets clock write_denied llm w st summary Hf Hc Hllm Hdl Hds)
    as (_ & Hst & _).
  apply (save_skipped clock write_denied llm' w1 _ Hst).
  destruct (short_term_header_hash "") as [rest Hrest].
  rewrite append_nil_r in Hrest. rewrite Hrest.
  apply hash_first_no_content.
Qed.

End Consolidation.

(* ================================================================== *)
(** ** Further properties: the scanner of the long-term store *)
(* ================================================================== *)

(** Lines met outside an entry that are not opening markers are skipped. *)
Lemma scan_outside (lines : list string) (sessions : list string) :
  forallb (fun l => negb (is_marker l)) lines = true ->
  fold_left scan_line lines (sessions, [], false) = (sessions, [], false).
Proof.
  induction lines as [|l lines IH]; intros H; [reflexivity |].
  cbn [forallb] in H. apply andb_true_iff in H. destruct H as [Hl Hrest].
  apply negb_true_iff in Hl. unfold is_marker in Hl.
  cbn [fold_left]. unfold scan_line at 2. rewrite Hl. exact (IH Hrest).
Qed.

(** The sessions already closed, with the entry left open, if any. *)
Lemma scan_store_then (entries : list Entry) :
  forallb readable_entry entries = true ->
  forall (sessions : list string) (tail : string),
    fold_left scan_line (split_lines (store_of entries ++ tail))
              (sessions, [], false)
    = fold_left scan_line (split_lines tail)
                ((sessions ++ map entry_session entries)%list, [], false).
Proof.
  induction entries as [|e es IH]; intros H sessions tail.
  - cbn [store_of map append]. rewrite app_nil_r. reflexivity.
  - cbn [forallb] in H. apply andb_true_iff in H. destruct H as [He Hes].
    destruct (readable_entry_parts e He) as (Hm & _ & Hplain).
    cbn [store_of]. rewrite append_assoc, entry_then_rest.
    change (split_lines (String LF ?x)) with (EmptyString :: split_lines x).
    rewrite !split_lines_app.
    rewrite (split_lines_single _ (newline_free_lf _ Hm)).
    change (split_lines closing_line) with [closing_line].
    cbn [fold_left]. change (scan_line (sessions, [], false) "")
      with (sessions, @nil string, false).
    rewrite (app_assoc [_]), (app_assoc _ [closing_line]).
    rewrite fold_left_app.
    rewrite (scan_entry sessions [] false _ closing_line _
               (session_marker_is_marker _ _) Hplain eq_refl eq_refl).
    cbn [nonempty andb]. rewrite (IH Hes). rewrite join_session.
    cbn [map]. rewrite <- app_assoc. reflexivity.
Qed.

Lemma join_open (marker body : string) :
  join_lines ([marker] ++ split_lines body) = marker ++ nl ++ body.
Proof.
  destruct (split_lines body) as [|h t] eqn:E;
    [exfalso; exact (split_lines_nonempty body E) |].
  change ([marker] ++ h :: t)%list with (marker :: h :: t).
  rewrite join_lines_cons, <- E, join_split_lines. reflexivity.
Qed.

(** X12.  An entry at the end of the store that has its marker line but
    no closing line is dropped by the scanner: the sessions found are the
    complete entries before it. *)
Theorem unclosed_last_entry_dropped
  (entries : list Entry) (d t body : string) :
  forallb readable_entry entries = true ->
  newline_free d = true -> newline_free t = true ->
  has_char CR body = false ->
  forallb plain_line (split_lines body) = true ->
  extract_sessions
    (universal_newlines
       (store_of entries ++ String LF (session_marker d t ++ String LF body)))
  = map entry_session entries.
Proof.
  intros Hr Hd Ht Hcr Hplain.
  pose proof (session_marker_newline_free d t Hd Ht) as Hm.
  rewrite universal_newlines_id.
  2:{ rewrite has_char_app, (store_of_no_cr entries Hr).
      cbn [has_char]. rewrite has_char_app. cbn [has_char].
      rewrite (newline_free_cr _ Hm), Hcr. reflexivity. }
  unfold extract_sessions. rewrite (scan_store_then entries Hr).
  change (split_lines (String LF ?x)) with (EmptyString :: split_lines x).
  rewrite split_lines_app.
  rewrite (split_lines_single _ (newline_free_lf _ Hm)).
  cbn [fold_left app]. change (scan_line (?s, [], false) "")
    with (s, @nil string, false).
  unfold scan_line at 2. fold (is_marker (session_marker d t)).
  rewrite session_marker_is_marker. cbn [nonempty andb].
  rewrite (scan_plain _ _ _ Hplain).
  reflexivity.
Qed.

(** X13.  Text before the entries is skipped by the scanner as long as
    none of its lines reads as an opening marker: the sessions found are
    those of the entries alone.  The two header lines are such text. *)
Theorem text_before_entries_ignored
  (preamble : string) (entries : list Entry) :
  has_char CR preamble = false ->
  forallb (fun l => negb (is_marker l)) (split_lines preamble) = true ->
  forallb readable_entry entries = true ->
  extract_sessions (universal_newlines (preamble ++ store_of entries))
  = map entry_session entries.
Proof.
  intros Hcr Hout Hr.
  rewrite universal_newlines_id
    by (rewrite has_char_app, Hcr, (store_of_no_cr entries Hr); reflexivity).
  unfold extract_sessions.
  destruct entries as [|e es].
  - cbn [store_of map]. rewrite append_nil_r.
    rewrite (scan_outside _ [] Hout). reflexivity.
  - pose proof (scan_store (e :: es) Hr []) as Hscan.
    cbn [store_of] in *. rewrite entry_then_rest in *.
    change (split_lines (String LF ?x)) with (EmptyString :: split_lines x)
      in Hscan.
    cbn [fold_left] in Hscan.
    change (scan_line ([], [], false) "") with (@nil string, @nil string, false)
      in Hscan.
    rewrite split_lines_app, fold_left_app, (scan_outside _ [] Hout).
    rewrite Hscan. reflexivity.
Qed.

(** X14.  An entry without closing line that is followed by another entry
    is kept: the next marker closes it, and it is returned as its marker
    line and its body, without a closing line. *)
Theorem unclosed_inner_entry_kept
  (d t body : string) (e : Entry) (es : list Entry) :
  newline_free d = true -> newline_free t = true ->
  has_char CR body = false ->
  forallb plain_line (split_lines body) = true ->
  forallb readable_entry (e :: es) = true ->
  extract_sessions
    (universal_newlines
       (String LF (session_marker d t ++ String LF body) ++ store_of (e :: es)))
  = (session_marker d t ++ nl ++ body) :: map entry_session (e :: es).
Proof.
  intros Hd Ht Hcr Hplain Hr.
  pose proof (session_marker_newline_free d t Hd Ht) as Hm.
  rewrite universal_newlines_id.
  2:{ rewrite has_char_app, (store_of_no_cr _ Hr).
      cbn [has_char]. rewrite has_char_app. cbn [has_char].
      rewrite (newline_free_cr _ Hm), Hcr. reflexivity. }
  cbn [forallb] in Hr. apply andb_true_iff in Hr. destruct Hr as [He Hes].
  destruct (readable_entry_parts e He) as (Hm2 & _ & Hplain2).
  unfold extract_sessions. cbn [store_of]. rewrite entry_then_rest.
  cbn [append]. rewrite append_assoc. cbn [append].
  change (split_lines (String LF ?x)) with (EmptyString :: split_lines x).
  rewrite !split_lines_app.
  rewrite (split_lines_single _ (newline_free_lf _ Hm)).
  rewrite (split_lines_single _ (newline_free_lf _ Hm2)).
  change (split_lines closing_line) with [closing_line].
  cbn [fold_left]. change (scan_line ([], [], false) "")
    with (@nil string, @nil string, false).
  rewrite (fold_left_app scan_line [session_marker d t]).
  cbn [fold_left]. unfold scan_line at 2.
  fold (is_marker (session_marker d t)).
  rewrite session_marker_is_marker. cbn [nonempty andb].
  rewrite fold_left_app, (scan_plain _ _ _ Hplain).
  rewrite (app_assoc [_]), (app_assoc _ [closing_line]).
  rewrite fold_left_app.
  rewrite (scan_entry [] _ true _ closing_line _
             (session_marker_is_marker _ _) Hplain2 eq_refl eq_refl).
  rewrite (scan_store es Hes). rewrite join_session, join_open.
  cbn [nonempty andb app map fst]. reflexivity.
Qed.

(* ================================================================== *)
(** ** Further properties: the readers and the buffer *)
(* ================================================================== *)

Lemma recent_of_nonpositive (cap : Z) (sessions : list string) :
  cap <= 0 -> recent_of cap sessions = skipn (Z.to_nat (- cap)) sessions.
Proof.
  intros Hcap. unfold recent_of, slice_from.
  destruct sessions as [|s l]; [cbn [nonempty]; rewrite skipn_nil; reflexivity |].
  cbn [nonempty].
  destruct (Z.ltb_spec (- cap) 0) as [H | _]; [lia |].
  destruct (Z.le_gt_cases (- cap) (Z.of_nat (List.length (s :: l)))) as [H | H].
  - rewrite Z.min_l by exact H. reflexivity.
  - rewrite Z.min_r by lia. rewrite Nat2Z.id.
    rewrite skipn_all. symmetry. apply skipn_all2. lia.
Qed.

(** X15.  With a cap of 0 or below, on a store without header lines that
    holds readable entries, [load_long_term_memory_context] does not
    return the most recent entries: it returns the entries without the
    [-cap] oldest ones, so all of them for a cap of 0, and the empty
    string when none is left. *)
Theorem load_context_nonpositive_cap (w : State) (e : Entry) (es : list Entry) :
  long_term_file w = Some (store_of (e :: es)) ->
  forallb readable_entry (e :: es) = true ->
  long_term_sessions w <= 0 ->
  let recent := skipn (Z.to_nat (- long_term_sessions w))
                      (map entry_session (e :: es)) in
  load_long_term_memory_context w =
  (Ok (if nonempty recent then format_context recent else ""), w).
Proof.
  intros Hf Hr Hcap recent. rewrite load_context_value, Hf.
  unfold context_of. rewrite store_meaningful, (extract_store _ Hr).
  rewrite (recent_of_nonpositive _ _ Hcap). fold recent.
  destruct recent; reflexivity.
Qed.

(** [get_short_term_memory_context] returns a string and leaves the state
    as it was. *)
Lemma short_term_context_total (w : State) :
  exists c, get_short_term_memory_context w = (Ok c, w).
Proof.
  unfold get_short_term_memory_context.
  unfold bind, ret, gets, exists_, read_file; simpl.
  destruct (message_buffer w) as [|m b]; simpl; [| eauto].
  destruct (short_term_file w) as [raw|] eqn:Hf; simpl; [| eauto].
  rewrite Hf. destruct (truthy _ && _); eauto.
Qed.

(** X17.  The three readers never write: whatever the state and whatever
    they return, [load_long_term_memory_context],
    [get_short_term_memory_context] and [get_long_term_history] leave the
    buffer, the counter, both stores, the log of inference calls and the
    clock as they were. *)
Theorem readers_leave_state (w : State) :
  state_of (load_long_term_memory_context w) = w
  /\ state_of (get_short_term_memory_context w) = w
  /\ state_of (get_long_term_history w) = w.
Proof.
  split; [| split].
  - rewrite load_context_value. reflexivity.
  - destruct (short_term_context_total w) as [c Hc]. rewrite Hc. reflexivity.
  - rewrite get_long_term_history_value. reflexivity.
Qed.

Lemma render_messages_snoc (first : string) (l : list Message) (m : Message) :
  render_messages first (l ++ [m]) =
  render_messages first l ++ role_label m ++ ": " ++ content m ++ nl.
Proof. unfold render_messages. rewrite fold_left_app. reflexivity. Qed.

(** X18.  Once a message is buffered, the short-term context is built
    from the buffer alone: after [add_message] it is the rendering of the
    messages buffered before, followed by one line for the new message,
    labelled [User] when its role is exactly ["user"] and [Assistant]
    otherwise; what the short-term store holds is not part of it. *)
Theorem context_after_add_message (r c : string) (w : State) :
  let w1 := state_of (add_message r c w) in
  get_short_term_memory_context w1 =
  (Ok (render_messages ("Current Session Messages:" ++ nl) (message_buffer w)
       ++ (if (r =? "user")%string then "User" else "Assistant")
       ++ ": " ++ c ++ nl), w1).
Proof.
  intros w1. unfold w1. rewrite add_message_state.
  unfold state_of. cbn [snd].
  unfold get_short_term_memory_context.
  unfold bind, ret, gets. cbn [with_session message_buffer].
  destruct (message_buffer w ++ [mkMessage r c])%list as [|m b] eqn:E.
  - destruct (message_buffer w); discriminate.
  - cbn [nonempty negb]. rewrite <- E, render_messages_snoc. reflexivity.
Qed.

(** X19.  A sequence of [add_message] calls appends the messages to the
    buffer in call order and adds to the counter the number of messages
    whose role is exactly ["user"]; the settings, both stores, the log of
    inference calls and the clock are untouched. *)
Theorem add_messages_state (msgs : list Message) (w : State) :
  add_messages msgs w =
  with_session (message_counter w + count_user msgs)
               (message_buffer w ++ msgs) w.
Proof.
  revert w. induction msgs as [|m msgs IH]; intros w.
  - unfold add_messages, count_user. cbn. rewrite Z.add_0_r, app_nil_r.
    destruct w; reflexivity.
  - rewrite add_messages_cons, IH, count_user_cons.
    unfold with_session. cbn. rewrite <- app_assoc, Z.add_assoc. reflexivity.
Qed.

(* ================================================================== *)
(** ** Properties of the application *)
(* ================================================================== *)

Lemma lower_app (a b : string) : lower (a ++ b) = lower a ++ lower b.
Proof. induction a as [|c a IH]; simpl; [reflexivity | now rewrite IH]. Qed.

(** X20.  The emergency check is blind to letter case and to the text
    around a keyword: a line that holds, anywhere, a text whose lower-case
    form is one of the keywords is flagged. *)
Theorem emergency_keyword_any_case (before text after keyword : string) :
  In keyword emergency_keywords ->
  lower text = keyword ->
  _check_emergency_keywords (before ++ text ++ after) = true.
Proof.
  intros Hin Hlow. unfold _check_emergency_keywords. cbv zeta.
  rewrite !lower_app, Hlow. apply existsb_exists.
  exists keyword. split; [exact Hin | apply str_in_middle].
Qed.

Lemma emergency_keyword_any_case_witness :
  _check_emergency_keywords
    ("I get " ++ "Chest Pain" ++ " after every meal") = true.
Proof.
  apply (emergency_keyword_any_case "I get " "Chest Pain" " after every meal"
           "chest pain").
  - simpl. tauto.
  - reflexivity.
Defined.

(** X21.  Given the string that [_build_personal_context] returns and the
    short-term context that was read, [_build_complete_prompt] changes
    nothing and returns exactly this list, in this order: the system
    message made of the system prompt and the personal context; when the
    long-term context is not empty, a system message that holds it under
    the heading [LONG-TERM MEMORY:]; when the short-term context is not
    empty, a system message that holds it after two line breaks; and the
    query, unchanged, as a message of role ["user"].  The system prompt
    is the text of [_build_system_prompt]. *)
Theorem build_complete_prompt_shape
  (self : DietAI) (query : string) (a : App) (short_term : string) :
  get_short_term_memory_context (memory_manager a) =
    (Ok short_term, memory_manager a) ->
  _build_complete_prompt self query a =
    (Ok ([ mkMessage "system" (system_prompt ++ personal_context self) ]
         ++ (if truthy (long_term_context self)
             then [ mkMessage "system"
                      (nl ++ nl ++ "LONG-TERM MEMORY:" ++ nl
                       ++ long_term_context self) ]
             else [])
         ++ (if truthy short_term
             then [ mkMessage "system" (nl ++ nl ++ short_term) ]
             else [])
         ++ [ mkMessage "user" query ])%list, a)
  /\ system_prompt =
     "You are an expert Personalized Nutrition and Macro Coach.

CRITICAL RULES:
- Keep ALL responses under 200 tokens
- Be PRECISE and CONCISE - maximum 2-3 sentences
- Always include macro breakdown (C/P/F) for meals
- Consider user's blood report and preferences
- Be direct and actionable

Note: You are not a registered dietitian or medical doctor.".
Proof.
  intros Hst. split; [| reflexivity].
  unfold _build_complete_prompt, abind, lift, aret. rewrite Hst.
  cbn [fst snd]. unfold prompt_messages.
  destruct (long_term_context self) as [|c lt];
    destruct short_term as [|c' st]; cbn [truthy app];
    destruct a; reflexivity.
Qed.

(** The prompt for a second query, with one exchange buffered and no
    long-term context. *)
Lemma build_complete_prompt_shape_witness :
  _build_complete_prompt sample_self "And for lunch?" headerless_app =
  (Ok [ mkMessage "system" system_prompt;
        mkMessage "system"
          (nl ++ nl ++ "Current Session Messages:" ++ nl
           ++ "User: What's a good breakfast?" ++ nl
           ++ "Assistant: Oatmeal with berries, 30g protein..." ++ nl);
        mkMessage "user" "And for lunch?" ], headerless_app).
Proof.
  destruct (build_complete_prompt_shape sample_self "And for lunch?"
              headerless_app
              (render_messages ("Current Session Messages:" ++ nl)
                 (message_buffer (memory_manager headerless_app)))
              eq_refl) as [H _].
  rewrite H. reflexivity.
Defined.

Lemma render_messages_lines (first : string) (msgs : list Message) :
  render_messages first msgs = first ++ transcript_lines msgs.
Proof.
  unfold render_messages. revert first.
  induction msgs as [|m rest IH]; intros first.
  - cbn [fold_left transcript_lines]. rewrite append_empty_r. reflexivity.
  - cbn [fold_left transcript_lines]. rewrite IH.
    unfold message_line, role_label. rewrite !append_assoc. reflexivity.
Qed.

(** The request of a summarisation, written out. *)
Lemma short_term_request_text (limit : Z) (buffer : list Message) :
  short_term_request limit buffer =
  mkChatRequest
    [ mkMessage "system" summarizer_role;
      mkMessage "user"
        (summary_prompt
           ("Conversation Transcript:" ++ nl
            ++ transcript_lines (slice_from (- limit) buffer))) ]
    512 (3 # 10) false.
Proof.
  unfold short_term_request, summary_prompt, summarizer_role.
  rewrite render_messages_lines. rewrite !append_assoc. reflexivity.
Qed.

Lemma slice_from_lastn {A : Type} (k : Z) (l : list A) :
  1 <= k -> slice_from (- k) l = lastn (Z.to_nat k) l.
Proof.
  intros Hk. unfold slice_from, lastn.
  destruct (Z.ltb_spec (- k) 0) as [_ | H]; [| lia].
  f_equal. lia.
Qed.

Section ApplicationProperties.

Variable clock : nat -> datetime.
Variable write_denied : Path -> bool.
Variable llm : Llama.
Variable llm_stream : StreamingLlama.
Variable self : DietAI.

Ltac run_app :=
  unfold chat, _build_complete_prompt, create_chat_completion_stream,
    abind, aret, lift, catch; cbn [fst snd memory_manager stream_calls].

(** The state of the memory manager after the two [add_message] calls of
    [chat]. *)
Lemma exchange_state (query reply : string) (w : State) :
  snd (add_message "assistant" reply (snd (add_message "user" query w))) =
  with_session (message_counter w + 1)
    (message_buffer w ++ [mkMessage "user" query; mkMessage "assistant" reply])
    w.
Proof.
  rewrite !add_message_state. cbn [snd]. unfold with_session. cbn.
  rewrite Z.add_0_r, <- app_assoc. reflexivity.
Qed.

Lemma add_message_ok (r c : string) (w : State) :
  fst (add_message r c w) = Ok tt.
Proof. rewrite add_message_state. reflexivity. Qed.

(** The run of [chat] up to the test of the threshold. *)
Lemma chat_unfolded (query : string) (a : App) (short_term : string) :
  get_short_term_memory_context (memory_manager a) =
    (Ok short_term, memory_manager a) ->
  chat clock write_denied llm llm_stream self query a =
  match llm_stream (chat_request self short_term query) with
  | Raise e =>
      (Raise e,
       mkApp (memory_manager a)
             (stream_calls a ++ [chat_request self short_term query]))
  | Ok chunks =>
      let w1 :=
        with_session (message_counter (memory_manager a) + 1)
          (message_buffer (memory_manager a) ++
             [mkMessage "user" query;
              mkMessage "assistant" (collect_tokens chunks)])
          (memory_manager a) in
      let calls := (stream_calls a ++ [chat_request self short_term query])%list in
      if short_term_limit w1 <=? message_counter w1 then
        match summarize_short_term_memory clock write_denied llm w1 with
        | (Ok _, w2) => (Ok (collect_tokens chunks), mkApp w2 calls)
        | (Raise e, w2) => (Raise e, mkApp w2 calls)
        end
      else (Ok (collect_tokens chunks), mkApp w1 calls)
  end.
Proof.
  intros Hst. run_app. rewrite Hst. cbn [fst snd].
  fold (chat_request self short_term query).
  destruct (llm_stream (chat_request self short_term query)) as [chunks | e];
    [| reflexivity].
  rewrite !add_message_ok. rewrite exchange_state.
  rewrite should_summarize_value. cbn [fst snd].
  cbv zeta.
  destruct (short_term_limit _ <=? message_counter _); [| reflexivity].
  destruct (summarize_short_term_memory _ _ _ _) as [[s | e] w2]; reflexivity.
Qed.

(** The run of a summarisation that succeeds. *)
Lemma summarize_ok_state (w1 : State) (summary : string) :
  nonempty (message_buffer w1) = true ->
  llm (short_term_request (short_term_limit w1) (message_buffer w1))
    = Ok summary ->
  write_denied short_term_path = false ->
  summarize_short_term_memory clock write_denied llm w1 =
  (Ok summary,
   with_session 0 []
     (with_short_term_file
        (Some (raw_text (short_term_file w1) ++
               written (short_term_entry
                          (strftime (clock (ticks w1)) "%Y-%m-%d %H:%M:%S")
                          summary)))
        (with_ticks (S (ticks w1))
           (with_llm_calls
              (llm_calls w1 ++
                 [short_term_request (short_term_limit w1)
                    (message_buffer w1)]) w1)))).
Proof.
  intros Hb Hllm Hden. unfold summarize_short_term_memory. run_method.
  destruct (message_buffer w1) as [|m b] eqn:E; [discriminate |]. simpl.
  rewrite Hllm. simpl. rewrite Hden. simpl.
  destruct (short_term_file w1); reflexivity.
Qed.

(** X22.  When the model streams a reply and the threshold is not
    reached, [chat] returns the concatenation of the contents of the
    chunks, in order, and buffers the query and that reply as one
    exchange; the counter grows by 1 and the stores are untouched. *)
Theorem chat_records_exchange
  (query : string) (a : App) (short_term : string)
  (chunks : list (option string)) :
  get_short_term_memory_context (memory_manager a) =
    (Ok short_term, memory_manager a) ->
  llm_stream (chat_request self short_term query) = Ok chunks ->
  message_counter (memory_manager a) + 1 < short_term_limit (memory_manager a) ->
  chat clock write_denied llm llm_stream self query a =
  (Ok (collect_tokens chunks),
   mkApp (with_session (message_counter (memory_manager a) + 1)
            (message_buffer (memory_manager a) ++
               [mkMessage "user" query;
                mkMessage "assistant" (collect_tokens chunks)])
            (memory_manager a))
         (stream_calls a ++ [chat_request self short_term query])).
Proof.
  intros Hst Hs Hlt. rewrite (chat_unfolded query a short_term Hst), Hs.
  cbv zeta. cbn [with_session short_term_limit message_counter].
  destruct (Z.leb_spec (short_term_limit (memory_manager a))
              (message_counter (memory_manager a) + 1)); [lia | reflexivity].
Qed.

(** X23.  When the exchange brings the counter to the threshold, the
    model answers the summary request and the short-term store can be
    written, [chat] returns the reply and a summarisation runs at once.
    The request holds the transcript of the last [short_term_limit]
    messages of the buffer with the new exchange, [buffer[-limit:]], and
    not of the older ones; the short-term store is what it was followed
    by a line break, the marker line with the timestamp, the summary and
    the separator line of fifty ['-']; the buffer is then empty and the
    counter is 0. *)
Theorem chat_summarises_at_threshold
  (query : string) (a : App) (short_term summary : string)
  (chunks : list (option string)) :
  let w := memory_manager a in
  let limit := short_term_limit w in
  let buffer := (message_buffer w ++
                   [mkMessage "user" query;
                    mkMessage "assistant" (collect_tokens chunks)])%list in
  get_short_term_memory_context w = (Ok short_term, w) ->
  llm_stream (chat_request self short_term query) = Ok chunks ->
  limit <= message_counter w + 1 ->
  llm (short_term_request limit buffer) = Ok summary ->
  write_denied short_term_path = false ->
  let r := chat clock write_denied llm llm_stream self query a in
  let w' := memory_manager (snd r) in
  let timestamp := strftime (clock (ticks w)) "%Y-%m-%d %H:%M:%S" in
  fst r = Ok (collect_tokens chunks)
  /\ message_buffer w' = [] /\ message_counter w' = 0
  /\ short_term_file w' =
     Some (raw_text (short_term_file w) ++ nl
           ++ "--- Summary (" ++ timestamp ++ ") ---" ++ nl
           ++ summary ++ nl
           ++ "--------------------------------------------------" ++ nl)
  /\ llm_calls w' =
     (llm_calls w ++
        [ mkChatRequest
            [ mkMessage "system" summarizer_role;
              mkMessage "user"
                (summary_prompt
                   ("Conversation Transcript:" ++ nl
                    ++ transcript_lines (slice_from (- limit) buffer))) ]
            512 (3 # 10) false ])%list
  /\ (1 <= limit ->
      slice_from (- limit) buffer = lastn (Z.to_nat limit) buffer).
Proof.
  intros w limit buffer Hst Hs Hdue Hllm Hden r w' timestamp.
  unfold w', r, timestamp.
  rewrite (chat_unfolded query a short_term Hst), Hs. cbv zeta.
  fold w. fold buffer.
  cbn [with_session short_term_limit message_counter]. fold limit.
  destruct (Z.leb_spec limit (message_counter w + 1)); [| lia].
  rewrite (summarize_ok_state _ summary);
    [ | unfold buffer; cbn [with_session message_buffer];
        destruct (message_buffer w); reflexivity
      | exact Hllm | exact Hden ].
  cbn [snd memory_manager with_session with_short_term_file with_ticks
       with_llm_calls message_buffer message_counter short_term_file
       llm_calls short_term_limit ticks].
  fold limit. fold buffer.
  rewrite short_term_request_text, short_term_entry_written.
  unfold summary_entry_text, separator_line.
  split; [reflexivity |]. split; [reflexivity |]. split; [reflexivity |].
  split; [reflexivity |]. split; [reflexivity |].
  intros Hpos. apply slice_from_lastn. exact Hpos.
Qed.

(** X24.  When the streaming call raises, [chat] raises the same
    exception and the memory manager is left as it was: neither the query
    nor a reply is buffered, the counter and the stores are unchanged. *)
Theorem chat_stream_failure
  (query : string) (a : App) (short_term : string) (e : exn) :
  get_short_term_memory_context (memory_manager a) =
    (Ok short_term, memory_manager a) ->
  llm_stream (chat_request self short_term query) = Raise e ->
  chat clock write_denied llm llm_stream self query a =
  (Raise e,
   mkApp (memory_manager a)
         (stream_calls a ++ [chat_request self short_term query])).
Proof.
  intros Hst Hs. rewrite (chat_unfolded query a short_term Hst), Hs.
  reflexivity.
Qed.

(** X25.  When the threshold is reached and the summarisation fails,
    because the model raises or the short-term store cannot be opened,
    [chat] raises after the exchange was buffered: the reply is not
    returned, the buffer holds the exchange, the counter stays at or above
    the threshold and the short-term store is unchanged. *)
Theorem chat_summary_failure
  (query : string) (a : App) (short_term : string)
  (chunks : list (option string)) :
  let w := memory_manager a in
  let buffer := (message_buffer w ++
                   [mkMessage "user" query;
                    mkMessage "assistant" (collect_tokens chunks)])%list in
  get_short_term_memory_context w = (Ok short_term, w) ->
  llm_stream (chat_request self short_term query) = Ok chunks ->
  short_term_limit w <= message_counter w + 1 ->
  ((exists e, llm (short_term_request (short_term_limit w) buffer) = Raise e)
   \/ write_denied short_term_path = true) ->
  let r := chat clock write_denied llm llm_stream self query a in
  let w' := memory_manager (snd r) in
  (exists e, fst r = Raise e)
  /\ message_buffer w' = buffer
  /\ message_counter w' = message_counter w + 1
  /\ short_term_limit w' <= message_counter w'
  /\ short_term_file w' = short_term_file w.
Proof.
  intros w buffer Hst Hs Hdue Hfail r w'. unfold w', r.
  rewrite (chat_unfolded query a short_term Hst), Hs. cbv zeta.
  fold w. fold buffer.
  cbn [with_session short_term_limit message_counter].
  destruct (Z.leb_spec (short_term_limit w) (message_counter w + 1)); [| lia].
  unfold summarize_short_term_memory. run_method.
  destruct buffer as [|m b] eqn:Eb.
  { unfold buffer in Eb. destruct (message_buffer w); discriminate. }
  simpl. destruct Hfail as [[e He] | Hden].
  - rewrite He. simpl. repeat split; eauto.
  - destruct (llm _) as [s | e]; simpl.
    + rewrite Hden. simpl. repeat split; eauto.
    + repeat split; eauto.
Qed.

End ApplicationProperties.

(* ================================================================== *)
(** ** Properties of the conversation loop *)
(* ================================================================== *)

Lemma lower_char_slash (c : ascii) : lower_char c = "/"%char -> c = "/"%char.
Proof.
  destruct c as [[] [] [] [] [] [] [] []]; vm_compute; intros H;
    solve [reflexivity | discriminate H].
Qed.

Lemma lower_command (u rest : string) :
  lower u = String "/" rest ->
  truthy u = true /\ startswith u "/" = true.
Proof.
  destruct u as [|c r]; simpl; intros H; [discriminate |].
  injection H as Hc _. apply lower_char_slash in Hc. subst c.
  split; [reflexivity |]. simpl. apply startswith_nil.
Qed.

Section Loop.

Variable clock : nat -> datetime.
Variable write_denied : Path -> bool.
Variable llm : Llama.
Variable llm_stream : StreamingLlama.
Variable self : DietAI.

Ltac run_app :=
  unfold chat, _build_complete_prompt, create_chat_completion_stream,
    abind, aret, lift, catch; cbn [fst snd memory_manager stream_calls].

Lemma summarize_ok_resets (w : State) (s : string) (w2 : State) :
  nonempty (message_buffer w) = true ->
  summarize_short_term_memory clock write_denied llm w = (Ok s, w2) ->
  message_counter w2 = 0 /\ message_buffer w2 = [].
Proof.
  intros Hb. unfold summarize_short_term_memory. run_method.
  destruct (message_buffer w) as [|m b]; [discriminate |]. simpl.
  destruct (llm _); simpl; [| discriminate].
  destruct (write_denied short_term_path); simpl; [discriminate |].
  intros H. injection H as _ H. subst w2. split; reflexivity.
Qed.

Lemma chat_session (query : string) (a : App) :
  let w := memory_manager a in
  let w' := memory_manager
              (snd (chat clock write_denied llm llm_stream self query a)) in
  short_term_limit w' = short_term_limit w
  /\ ((message_counter w' = message_counter w
       /\ message_buffer w' = message_buffer w)
      \/ (exists reply,
            message_counter w' = message_counter w + 1
            /\ message_buffer w' =
               (message_buffer w ++
                  [mkMessage "user" query; mkMessage "assistant" reply])%list)
      \/ (message_counter w' = 0 /\ message_buffer w' = [])).
Proof.
  intros w w'. unfold w'.
  destruct (short_term_context_total (memory_manager a)) as [st Hst].
  rewrite (chat_unfolded clock write_denied llm llm_stream self query a st Hst).
  destruct (llm_stream _) as [chunks | e]; cbn [snd memory_manager].
  2:{ split; [reflexivity | left; split; reflexivity]. }
  cbv zeta. fold w.
  set (w1 := with_session _ _ w).
  destruct (short_term_limit w1 <=? message_counter w1).
  - pose proof (summarize_session clock write_denied llm w1) as Hs.
    assert (Hl : short_term_limit
                   (snd (summarize_short_term_memory clock write_denied llm w1))
                 = short_term_limit w).
    { unfold summarize_short_term_memory. run_method.
      destruct (message_buffer w ++ _)%list; simpl; [reflexivity |].
      destruct (llm _); simpl; [| reflexivity].
      destruct (write_denied short_term_path); reflexivity. }
    unfold state_of in Hs. cbv zeta in Hs.
    destruct (summarize_short_term_memory clock write_denied llm w1)
      as [[s | e] w2]; cbn [snd memory_manager] in *;
      (split; [exact Hl |]);
      (destruct Hs as [[Hc Hb] | [Hc Hb]];
       [right; left; eexists; split; [exact Hc | exact Hb]
       | right; right; split; assumption]).
  - cbn [snd memory_manager]. split; [reflexivity |].
    right; left. eexists. split; reflexivity.
Qed.

Lemma chat_invariant (query : string) (a : App) :
  counter_invariant (memory_manager a) ->
  counter_invariant
    (memory_manager (snd (chat clock write_denied llm llm_stream self query a))).
Proof.
  unfold counter_invariant. intros Hinv.
  destruct (chat_session query a)
    as (_ & [[Hc Hb] | [(reply & Hc & Hb) | [Hc Hb]]]);
    rewrite Hc, Hb.
  - exact Hinv.
  - rewrite count_user_app, Hinv. reflexivity.
  - reflexivity.
Qed.

(** X26.  [chat] keeps the invariant of the session buffer whatever the
    model does, and whenever it returns a reply the counter is below the
    threshold (for a threshold of at least 1): a reply is never handed
    back with a summarisation still due. *)
Theorem chat_keeps_counter_below_threshold (query : string) (a : App) :
  let r := chat clock write_denied llm llm_stream self query a in
  (counter_invariant (memory_manager a) ->
   counter_invariant (memory_manager (snd r)))
  /\ (1 <= short_term_limit (memory_manager a) ->
      forall reply, fst r = Ok reply ->
        message_counter (memory_manager (snd r))
        < short_term_limit (memory_manager (snd r))).
Proof.
  intros r. split; [apply chat_invariant |].
  intros Hlim reply. unfold r.
  destruct (short_term_context_total (memory_manager a)) as [st Hst].
  rewrite (chat_unfolded clock write_denied llm llm_stream self query a st Hst).
  destruct (llm_stream _) as [chunks | e]; [| discriminate].
  cbv zeta. set (w1 := with_session _ _ (memory_manager a)).
  destruct (Z.leb_spec (short_term_limit w1) (message_counter w1)) as [Hdue | Hlt].
  - destruct (summarize_short_term_memory clock write_denied llm w1)
      as [[s | e] w2] eqn:Es; [| discriminate].
    intros _. cbn [snd memory_manager].
    assert (Hne : nonempty (message_buffer w1) = true).
    { unfold w1. cbn [with_session message_buffer].
      destruct (message_buffer (memory_manager a)); reflexivity. }
    destruct (summarize_ok_resets w1 s w2 Hne Es) as [Hc _].
    pose proof (summarize_session clock write_denied llm w1) as Hs.
    assert (Hl : short_term_limit w2 = short_term_limit w1).
    { revert Es. unfold summarize_short_term_memory. run_method.
      destruct (message_buffer (memory_manager a) ++ _)%list; simpl.
      - intros H. injection H as _ H. subst w2. reflexivity.
      - destruct (llm _); simpl; [| discriminate].
        destruct (write_denied short_term_path); simpl; [discriminate |].
        intros H. injection H as _ H. subst w2. reflexivity. }
    rewrite Hc, Hl. unfold w1. cbn [with_session short_term_limit]. lia.
  - intros _. cbn [snd memory_manager]. exact Hlt.
Qed.

Lemma counter_invariant_of_save (w : State) :
  counter_invariant w ->
  counter_invariant (snd (save_to_long_term_memory clock write_denied llm w)).
Proof.
  unfold counter_invariant. intros Hinv.
  destruct (save_session clock write_denied llm w) as [[Hc Hb] | [Hc Hb]];
    unfold state_of in Hc, Hb; rewrite Hc, Hb; [exact Hinv | reflexivity].
Qed.

(** The memory manager after one line of input. *)
Lemma handle_line_invariant (line : string) (a : App) :
  counter_invariant (memory_manager a) ->
  counter_invariant
    (memory_manager
       (snd (handle_line clock write_denied llm llm_stream self line a))).
Proof.
  intros Hinv. unfold handle_line. cbv zeta.
  destruct (negb (truthy (strip line))); [exact Hinv |].
  destruct (startswith (strip line) "/").
  - destruct (lower (strip line) =? "/exit")%string.
    { unfold abind, lift, aret. cbn [fst snd memory_manager].
      pose proof (counter_invariant_of_save (memory_manager a) Hinv) as H.
      destruct (save_to_long_term_memory clock write_denied llm
                  (memory_manager a)) as [[u | e] w2];
        cbn [fst snd memory_manager] in *; exact H. }
    destruct (lower (strip line) =? "/clear")%string.
    { unfold abind, lift, aret. cbn [fst snd memory_manager].
      assert (H : counter_invariant
                    (snd (clear_short_term_memory write_denied
                            (memory_manager a)))).
      { unfold clear_short_term_memory. run_method.
        destruct (write_denied short_term_path); reflexivity. }
      destruct (clear_short_term_memory write_denied (memory_manager a))
        as [[u | e] w2]; cbn [fst snd memory_manager] in *; exact H. }
    destruct (lower (strip line) =? "/history")%string; [| exact Hinv].
    unfold abind, lift, aret. cbn [fst snd memory_manager].
    rewrite get_long_term_history_value. exact Hinv.
  - destruct (_check_emergency_keywords (strip line)); [exact Hinv |].
    pose proof (chat_invariant (strip line) a Hinv) as H.
    unfold abind, aret.
    destruct (chat clock write_denied llm llm_stream self (strip line) a)
      as [[reply | e] a2]; cbn [snd] in *; exact H.
Qed.

Lemma step_invariant (event : InputEvent) (a : App) :
  counter_invariant (memory_manager a) ->
  counter_invariant
    (memory_manager (snd (step clock write_denied llm llm_stream self event a))).
Proof.
  intros Hinv. destruct event as [line |]; unfold step.
  - pose proof (handle_line_invariant line a Hinv) as H.
    unfold catch, aret.
    destruct (handle_line clock write_denied llm llm_stream self line a)
      as [[c | e] a2]; cbn [snd] in *; exact H.
  - unfold abind, lift, aret. cbn [fst snd memory_manager].
    pose proof (counter_invariant_of_save (memory_manager a) Hinv) as H.
    destruct (save_to_long_term_memory clock write_denied llm
                (memory_manager a)) as [[u | e] w2];
      cbn [fst snd memory_manager] in *; exact H.
Qed.

(** X27.  The loop of [run] keeps the invariant of the session buffer over
    every sequence of inputs, whatever the model and the file system do;
    and as long as no interrupt arrives it never raises: every exception
    met while a line is handled is caught. *)
Theorem run_keeps_invariant (events : list InputEvent) :
  (forall a : App,
      counter_invariant (memory_manager a) ->
      counter_invariant
        (memory_manager
           (snd (run clock write_denied llm llm_stream self events a))))
  /\ (forallb (fun ev => match ev with Line _ => true | Interrupt => false end)
              events = true ->
      forall a : App,
      exists (c : Control) (a' : App),
        run clock write_denied llm llm_stream self events a = (Ok c, a')).
Proof.
  split.
  - induction events as [|ev rest IH]; intros a Hinv; [exact Hinv |].
    cbn [run]. unfold abind at 1.
    pose proof (step_invariant ev a Hinv) as H.
    destruct (step clock write_denied llm llm_stream self ev a)
      as [[[|] | e] a2]; cbn [snd] in *.
    + apply IH. exact H.
    + exact H.
    + exact H.
  - induction events as [|ev rest IH]; intros Hlines a;
      [exists Continue, a; reflexivity |].
    cbn [forallb] in Hlines. apply andb_true_iff in Hlines.
    destruct Hlines as [Hev Hrest]. destruct ev as [line |]; [| discriminate].
    cbn [run]. unfold abind at 1. unfold step, catch, aret.
    destruct (handle_line clock write_denied llm llm_stream self line a)
      as [[[|] | e] a2].
    + apply (IH Hrest).
    + eauto.
    + apply (IH Hrest).
Qed.

End Loop.

Section Commands.

Variable clock : nat -> datetime.
Variable write_denied : Path -> bool.
Variable llm : Llama.
Variable llm_stream : StreamingLlama.
Variable self : DietAI.

(** X28.  A blank line, a command other than [/exit] and [/clear], and a
    line that holds an emergency keyword are answered on the console
    only: the loop goes on to the next input with the memory manager and
    the log of streaming calls as they were, so such a line is neither
    buffered nor sent to the model. *)
Theorem console_only_line_changes_nothing
  (line : string) (rest : list InputEvent) (a : App) :
  console_only line = true ->
  run clock write_denied llm llm_stream self (Line line :: rest) a =
  run clock write_denied llm llm_stream self rest a.
Proof.
  unfold console_only. cbv zeta. intros H.
  assert (Hstep : step clock write_denied llm llm_stream self (Line line) a
                  = (Ok Continue, a)).
  { unfold step, catch, handle_line. cbv zeta.
    destruct (negb (truthy (strip line))); [reflexivity |].
    destruct (startswith (strip line) "/"); cbn [negb orb andb] in H.
    - destruct (lower (strip line) =? "/exit")%string; [discriminate |].
      destruct (lower (strip line) =? "/clear")%string; [discriminate |].
      destruct (lower (strip line) =? "/history")%string; [| reflexivity].
      unfold abind, lift, aret. rewrite get_long_term_history_value.
      cbn [fst snd]. destruct a; reflexivity.
    - rewrite H. reflexivity. }
  cbn [run]. unfold abind at 1. rewrite Hstep. reflexivity.
Qed.

(** X29.  [/exit], in any letter case and with blanks around it, runs the
    consolidation; the loop ends when the consolidation returns, and the
    inputs that follow are not read.  When the consolidation raises, the
    exception is caught and the loop goes on with the next input.  An
    interrupt runs the consolidation too and ends the loop, and an
    exception of that consolidation leaves [run]. *)
Theorem exit_runs_consolidation
  (line : string) (rest : list InputEvent) (a : App) :
  lower (strip line) = "/exit" ->
  let saved := save_to_long_term_memory clock write_denied llm
                 (memory_manager a) in
  let a' := mkApp (snd saved) (stream_calls a) in
  run clock write_denied llm llm_stream self (Line line :: rest) a =
    match fst saved with
    | Ok _ => (Ok Break, a')
    | Raise _ => run clock write_denied llm llm_stream self rest a'
    end
  /\ run clock write_denied llm llm_stream self (Interrupt :: rest) a =
    match fst saved with
    | Ok _ => (Ok Break, a')
    | Raise e => (Raise e, a')
    end.
Proof.
  intros Hexit saved a'. destruct (lower_command _ _ Hexit) as [Ht Hs].
  unfold a', saved. clear a' saved.
  split.
  - cbn [run]. unfold abind at 1. unfold step, catch, handle_line. cbv zeta.
    rewrite Ht, Hs, Hexit, String.eqb_refl. cbn [negb].
    unfold abind, lift, aret.
    destruct (save_to_long_term_memory clock write_denied llm
                (memory_manager a)) as [[u | e] w2]; reflexivity.
  - cbn [run]. unfold abind at 1. unfold step.
    unfold abind, lift, aret.
    destruct (save_to_long_term_memory clock write_denied llm
                (memory_manager a)) as [[u | e] w2]; reflexivity.
Qed.

(** X30.  [/clear], in any letter case and with blanks around it, clears
    the session: the loop goes on to the next input with an empty buffer
    and a counter of 0, also when the short-term store could not be
    rewritten; the long-term store is untouched. *)
Theorem clear_command_resets_session
  (line : string) (rest : list InputEvent) (a : App) :
  lower (strip line) = "/clear" ->
  let a' := mkApp (snd (clear_short_term_memory write_denied
                          (memory_manager a))) (stream_calls a) in
  run clock write_denied llm llm_stream self (Line line :: rest) a =
    run clock write_denied llm llm_stream self rest a'
  /\ message_buffer (memory_manager a') = []
  /\ message_counter (memory_manager a') = 0
  /\ long_term_file (memory_manager a') = long_term_file (memory_manager a).
Proof.
  intros Hclear a'. destruct (lower_command _ _ Hclear) as [Ht Hs].
  unfold a'. clear a'.
  split.
  - cbn [run]. unfold abind at 1. unfold step, catch, handle_line. cbv zeta.
    rewrite Ht, Hs, Hclear, String.eqb_refl. cbn [negb].
    replace ("/clear" =? "/exit")%string with false by reflexivity.
    unfold abind, lift, aret.
    destruct (clear_short_term_memory write_denied (memory_manager a))
      as [[u | e] w2]; reflexivity.
  - cbn [memory_manager]. unfold clear_short_term_memory.
    run_method. destruct (write_denied short_term_path); repeat split.
Qed.

End Commands.

(* ================================================================== *)
(** ** Runs of the further properties on concrete states *)
(* ================================================================== *)

(** The long-term store is absent and is created; the short-term store
    exists and is kept. *)
Lemma ensure_memory_files_keeps_existing_witness :
  let r := _ensure_memory_files allow_writes (sample_state 3 None) in
  value_of r = Ok tt
  /\ short_term_file (state_of r) = Some (written short_term_header)
  /\ long_term_file (state_of r) = Some (written long_term_header)
  /\ message_buffer (state_of r) = []
  /\ message_counter (state_of r) = 0
  /\ _ensure_memory_files allow_writes (state_of r) = (Ok tt, state_of r).
Proof.
  apply (ensure_memory_files_keeps_existing allow_writes (sample_state 3 None));
    reflexivity.
Defined.

(** Construction over a long-term store that holds two entries. *)
Lemma init_resets_session_keeps_stores_witness :
  let r := init allow_writes 5 2 (two_entries_state 0) in
  value_of r = Ok tt
  /\ short_term_limit (state_of r) = 5
  /\ long_term_sessions (state_of r) = 2
  /\ message_buffer (state_of r) = []
  /\ message_counter (state_of r) = 0
  /\ (forall raw,
        long_term_file (two_entries_state 0) = Some raw ->
        long_term_file (state_of r) = Some raw
        /\ value_of (load_long_term_memory_context (state_of r)) =
           Ok (context_of (Some raw) 2)).
Proof.
  apply (init_resets_session_keeps_stores allow_writes 5 2 (two_entries_state 0));
    reflexivity.
Defined.

(** Clearing a session of two exchanges. *)
Lemma clear_discards_session_witness :
  let r := clear_short_term_memory allow_writes buffered_state in
  let w1 := state_of r in
  value_of r = Ok tt
  /\ message_buffer w1 = [] /\ message_counter w1 = 0
  /\ short_term_file w1 = Some (written short_term_header)
  /\ long_term_file w1 = long_term_file buffered_state
  /\ llm_calls w1 = llm_calls buffered_state
  /\ get_short_term_memory_context w1 = (Ok "", w1)
  /\ save_to_long_term_memory sample_clock allow_writes
       (sample_llm session_summary) w1 = (Ok tt, w1).
Proof.
  apply (clear_discards_session sample_clock allow_writes
           (sample_llm session_summary) buffered_state).
  reflexivity.
Defined.

Lemma clear_write_failure_witness :
  let r := clear_short_term_memory deny_writes buffered_state in
  value_of r = Raise OSError
  /\ message_buffer (state_of r) = []
  /\ message_counter (state_of r) = 0
  /\ short_term_file (state_of r) = short_term_file buffered_state
  /\ long_term_file (state_of r) = long_term_file buffered_state.
Proof.
  apply (clear_write_failure deny_writes buffered_state). reflexivity.
Defined.

Lemma summarize_inference_failure_witness :
  let w := buffered_state in
  let r := summarize_short_term_memory sample_clock allow_writes
             failing_llm w in
  value_of r = Raise InferenceError
  /\ message_buffer (state_of r) = message_buffer w
  /\ message_counter (state_of r) = message_counter w
  /\ short_term_file (state_of r) = short_term_file w
  /\ long_term_file (state_of r) = long_term_file w
  /\ llm_calls (state_of r) =
     (llm_calls w ++
        [short_term_request (short_term_limit w) (message_buffer w)])%list.
Proof.
  apply (summarize_inference_failure sample_clock allow_writes failing_llm
           buffered_state InferenceError); reflexivity.
Defined.

(** Threshold 2 and a buffer of two exchanges: the first exchange is not
    part of the request. *)
Lemma summary_request_covers_last_messages_witness :
  short_term_request 2 two_exchanges =
  short_term_request 2
    [ mkMessage "user" "And for lunch?";
      mkMessage "assistant" "A lentil salad." ].
Proof.
  apply (summary_request_covers_last_messages 2
           [ mkMessage "user" "What's a good breakfast?";
             mkMessage "assistant" "Oatmeal with berries, 30g protein..." ]
           [ mkMessage "user" "And for lunch?";
             mkMessage "assistant" "A lentil salad." ]);
    first [lia | reflexivity].
Defined.


(** A short-term store that holds blank lines only. *)
Lemma consolidation_skipped_witness :
  let w := with_short_term_file (Some (nl ++ "   " ++ nl)) buffered_state in
  save_to_long_term_memory sample_clock allow_writes
    (sample_llm session_summary) w = (Ok tt, w).
Proof.
  apply (consolidation_skipped sample_clock allow_writes
           (sample_llm session_summary)
           (with_short_term_file (Some (nl ++ "   " ++ nl)) buffered_state)).
  right. exists (nl ++ "   " ++ nl). split; [reflexivity |].
  left. reflexivity.
Defined.

Lemma consolidation_failure_keeps_stores_witness :
  let w := headerless_state in
  let r := save_to_long_term_memory sample_clock deny_long_term
             (sample_llm session_summary) w in
  (exists e, value_of r = Raise e)
  /\ short_term_file (state_of r) = short_term_file w
  /\ long_term_file (state_of r) = long_term_file w
  /\ message_buffer (state_of r) = message_buffer w
  /\ message_counter (state_of r) = message_counter w.
Proof.
  apply (consolidation_failure_keeps_stores sample_clock deny_long_term
           (sample_llm session_summary) headerless_state
           (written (short_term_entry "2024-01-05 09:00:00" batch_summary)));
    [reflexivity | reflexivity | right; reflexivity].
Defined.

Lemma consolidation_reset_failure_witness :
  let w := headerless_state in
  let r := save_to_long_term_memory sample_clock deny_short_term
             (sample_llm session_summary) w in
  value_of r = Raise OSError
  /\ long_term_file (state_of r) =
     Some (raw_text (long_term_file w) ++
           written (long_term_entry "2024-01-05" "2024-01-05 09:03:01"
                      session_summary))
  /\ short_term_file (state_of r) =
     Some (written (short_term_entry "2024-01-05 09:00:00" batch_summary))
  /\ message_buffer (state_of r) = message_buffer w
  /\ message_counter (state_of r) = message_counter w.
Proof.
  apply (consolidation_reset_failure sample_clock deny_short_term
           (sample_llm session_summary) headerless_state
           (written (short_term_entry "2024-01-05 09:00:00" batch_summary))
           session_summary); reflexivity.
Defined.

Lemma consolidation_runs_once_witness :
  let w1 := state_of (save_to_long_term_memory sample_clock allow_writes
                        (sample_llm session_summary) headerless_state) in
  save_to_long_term_memory sample_clock allow_writes
    (sample_llm delimited_summary) w1 = (Ok tt, w1).
Proof.
  apply (consolidation_runs_once sample_clock allow_writes
           (sample_llm session_summary) (sample_llm delimited_summary)
           headerless_state
           (written (short_term_entry "2024-01-05 09:00:00" batch_summary))
           session_summary); reflexivity.
Defined.

(** One complete entry, then a marker line and one line of text. *)
Lemma unclosed_last_entry_dropped_witness :
  extract_sessions
    (universal_newlines
       (store_of [oatmeal_entry] ++
        String LF (session_marker "2024-01-06" "2024-01-06 18:30:00" ++
                   String LF "Lentil soup")))
  = [entry_session oatmeal_entry].
Proof.
  apply (unclosed_last_entry_dropped [oatmeal_entry]
           "2024-01-06" "2024-01-06 18:30:00" "Lentil soup"); reflexivity.
Defined.

(** The two header lines before two entries. *)
Lemma text_before_entries_ignored_witness :
  extract_sessions
    (universal_newlines
       (written long_term_header ++ store_of [oatmeal_entry; lentil_entry]))
  = [entry_session oatmeal_entry; entry_session lentil_entry].
Proof.
  apply (text_before_entries_ignored (written long_term_header)
           [oatmeal_entry; lentil_entry]); reflexivity.
Defined.

Lemma unclosed_inner_entry_kept_witness :
  extract_sessions
    (universal_newlines
       (String LF (session_marker "2024-01-04" "2024-01-04 20:00:00" ++
                   String LF "Rice and beans")
        ++ store_of [oatmeal_entry]))
  = [ session_marker "2024-01-04" "2024-01-04 20:00:00" ++ nl
      ++ "Rice and beans";
      entry_session oatmeal_entry ].
Proof.
  apply (unclosed_inner_entry_kept "2024-01-04" "2024-01-04 20:00:00"
           "Rice and beans" oatmeal_entry []); reflexivity.
Defined.

(** A cap of -1 on a store of two entries: the newer entry alone. *)
Lemma load_context_nonpositive_cap_witness :
  load_long_term_memory_context (two_entries_state (-1)) =
  (Ok (format_context [entry_session lentil_entry]), two_entries_state (-1)).
Proof.
  apply (load_context_nonpositive_cap (two_entries_state (-1))
           oatmeal_entry [lentil_entry]); first [reflexivity | simpl; lia].
Defined.

(** A cap of 1 on a store of two entries: the newer entry alone. *)
Lemma load_context_of_store_witness :
  load_long_term_memory_context (two_entries_state 1) =
    (Ok (format_context [entry_session lentil_entry]), two_entries_state 1)
  /\ List.length [entry_session lentil_entry] = 1%nat.
Proof.
  apply (load_context_of_store (two_entries_state 1)
           oatmeal_entry [lentil_entry]); first [reflexivity | simpl; lia].
Defined.

(** The first query of a session with threshold 3. *)
Lemma chat_records_exchange_witness :
  chat sample_clock allow_writes (sample_llm session_summary) sample_stream
       sample_self "What's a good breakfast?" (fresh_app 3) =
  (Ok "Oatmeal with berries, 30g protein...",
   mkApp (with_session 1
            [ mkMessage "user" "What's a good breakfast?";
              mkMessage "assistant" "Oatmeal with berries, 30g protein..." ]
            (memory_manager (fresh_app 3)))
         [chat_request sample_self "" "What's a good breakfast?"]).
Proof.
  apply (chat_records_exchange sample_clock allow_writes
           (sample_llm session_summary) sample_stream sample_self
           "What's a good breakfast?" (fresh_app 3) ""
           [None; Some "Oatmeal with berries, "; Some "30g protein..."]);
    first [reflexivity | simpl; lia].
Defined.

(** The second query of a session with threshold 2: four messages are
    buffered, the transcript of the request holds the last two. *)
Lemma chat_summarises_at_threshold_witness :
  let r := chat sample_clock allow_writes (sample_llm session_summary)
             sample_stream sample_self "And for lunch?" headerless_app in
  let w' := memory_manager (snd r) in
  fst r = Ok "Oatmeal with berries, 30g protein..."
  /\ message_buffer w' = [] /\ message_counter w' = 0
  /\ short_term_file w' =
     Some (nl ++ "--- Summary (2024-01-05 09:03:00) ---" ++ nl
           ++ batch_summary ++ nl
           ++ "--------------------------------------------------" ++ nl)
  /\ llm_calls w' =
     [ mkChatRequest
         [ mkMessage "system" summarizer_role;
           mkMessage "user"
             (summary_prompt
                ("Conversation Transcript:" ++ nl
                 ++ "User: And for lunch?" ++ nl
                 ++ "Assistant: Oatmeal with berries, 30g protein..." ++ nl)) ]
         512 (3 # 10) false ].
Proof.
  destruct (chat_summarises_at_threshold sample_clock allow_writes
              (sample_llm session_summary) sample_stream sample_self
              "And for lunch?" headerless_app
              (render_messages ("Current Session Messages:" ++ nl)
                 (message_buffer (memory_manager headerless_app)))
              batch_summary
              [None; Some "Oatmeal with berries, "; Some "30g protein..."]
              eq_refl eq_refl ltac:(simpl; lia) eq_refl eq_refl)
    as (Hv & Hb & Hc & Hf & Hl & _).
  split; [exact Hv |]. split; [exact Hb |]. split; [exact Hc |].
  split; [exact Hf | exact Hl].
Defined.

Lemma chat_stream_failure_witness :
  chat sample_clock allow_writes (sample_llm session_summary) failing_stream
       sample_self "What's a good breakfast?" (fresh_app 3) =
  (Raise InferenceError,
   mkApp (memory_manager (fresh_app 3))
         [chat_request sample_self "" "What's a good breakfast?"]).
Proof.
  apply (chat_stream_failure sample_clock allow_writes
           (sample_llm session_summary) failing_stream sample_self
           "What's a good breakfast?" (fresh_app 3) "" InferenceError);
    reflexivity.
Defined.

Lemma chat_summary_failure_witness :
  let r := chat sample_clock allow_writes failing_llm sample_stream
             sample_self "And for lunch?" headerless_app in
  let w' := memory_manager (snd r) in
  (exists e, fst r = Raise e)
  /\ List.length (message_buffer w') = 4%nat
  /\ message_counter w' = 2
  /\ short_term_file w' = Some "".
Proof.
  destruct (chat_summary_failure sample_clock allow_writes failing_llm
              sample_stream sample_self "And for lunch?" headerless_app
              (render_messages ("Current Session Messages:" ++ nl)
                 (message_buffer (memory_manager headerless_app)))
              [None; Some "Oatmeal with berries, "; Some "30g protein..."]
              eq_refl eq_refl ltac:(simpl; lia)
              (or_introl (ex_intro _ InferenceError eq_refl)))
    as (He & Hb & Hc & _ & Hf).
  split; [exact He |]. split; [rewrite Hb; reflexivity |].
  split; [exact Hc | exact Hf].
Defined.

Lemma chat_keeps_counter_below_threshold_witness :
  let r := chat sample_clock allow_writes (sample_llm session_summary)
             sample_stream sample_self "And for lunch?" headerless_app in
  counter_invariant (memory_manager (snd r))
  /\ message_counter (memory_manager (snd r))
     < short_term_limit (memory_manager (snd r)).
Proof.
  destruct (chat_keeps_counter_below_threshold sample_clock allow_writes
              (sample_llm session_summary) sample_stream sample_self
              "And for lunch?" headerless_app) as [Hinv Hbound].
  split.
  - apply Hinv. reflexivity.
  - apply (Hbound ltac:(simpl; lia) "Oatmeal with berries, 30g protein...").
    reflexivity.
Defined.

Lemma run_keeps_invariant_witness :
  counter_invariant
    (memory_manager
       (snd (run sample_clock allow_writes (sample_llm session_summary)
               sample_stream sample_self
               [Line "What's a good breakfast?"; Line "/clear"]
               (fresh_app 3))))
  /\ exists (c : Control) (a' : App),
       run sample_clock allow_writes (sample_llm session_summary)
           failing_stream sample_self
           [Line "What's a good breakfast?"; Line "/clear"] (fresh_app 3)
       = (Ok c, a').
Proof.
  split.
  - apply (proj1 (run_keeps_invariant sample_clock allow_writes
                    (sample_llm session_summary) sample_stream sample_self
                    [Line "What's a good breakfast?"; Line "/clear"])).
    reflexivity.
  - apply (proj2 (run_keeps_invariant sample_clock allow_writes
                    (sample_llm session_summary) failing_stream sample_self
                    [Line "What's a good breakfast?"; Line "/clear"])).
    reflexivity.
Defined.

Lemma console_only_line_changes_nothing_witness :
  run sample_clock allow_writes (sample_llm session_summary) sample_stream
      sample_self
      [Line "I think this is an EMERGENCY"; Line "/exit"] headerless_app =
  run sample_clock allow_writes (sample_llm session_summary) sample_stream
      sample_self [Line "/exit"] headerless_app.
Proof.
  apply (console_only_line_changes_nothing sample_clock allow_writes
           (sample_llm session_summary) sample_stream sample_self
           "I think this is an EMERGENCY" [Line "/exit"] headerless_app).
  reflexivity.
Defined.

(** [/Exit] with a model that raises during the consolidation: the
    loop goes on to the next input. *)
Lemma exit_runs_consolidation_witness :
  run sample_clock allow_writes failing_llm sample_stream sample_self
      [Line "  /Exit "; Line "/goals"] (mkApp headerless_state []) =
  run sample_clock allow_writes failing_llm sample_stream sample_self
      [Line "/goals"]
      (mkApp (snd (save_to_long_term_memory sample_clock allow_writes
                     failing_llm headerless_state)) []).
Proof.
  exact (proj1 (exit_runs_consolidation sample_clock allow_writes failing_llm
                  sample_stream sample_self "  /Exit " [Line "/goals"]
                  (mkApp headerless_state []) eq_refl)).
Defined.

Lemma clear_command_resets_session_witness :
  let a' := mkApp (snd (clear_short_term_memory deny_writes
                          (memory_manager headerless_app)))
                  (stream_calls headerless_app) in
  run sample_clock deny_writes (sample_llm session_summary) sample_stream
      sample_self [Line "/CLEAR"; Line "/goals"] headerless_app =
    run sample_clock deny_writes (sample_llm session_summary) sample_stream
        sample_self [Line "/goals"] a'
  /\ message_buffer (memory_manager a') = []
  /\ message_counter (memory_manager a') = 0
  /\ long_term_file (memory_manager a') =
     long_term_file (memory_manager headerless_app).
Proof.
  apply (clear_command_resets_session sample_clock deny_writes
           (sample_llm session_summary) sample_stream sample_self
           "/CLEAR" [Line "/goals"] headerless_app).
  reflexivity.
Defined.
